(** * ml_things.plot_functions: argument checking and call forwarding

    A shallow embedding of [src/ml_things/plot_functions.py].  The three
    functions [plot_array], [plot_dict] and [plot_confusion_matrix] validate
    their arguments and then drive matplotlib, numpy and scikit-learn.  The
    embedding keeps the statements of the Python source in their order:
    every call into the plotting library is recorded in a trace, the active
    style sheet is a field of the library state, and a [raise] stops the
    function and leaves the state as it was at that point.

    What the embedding fixes: [step_size] and the class labels are
    integers; a float is an exact rational, an infinity or NaN, so rounding
    is left out; the x values of a line plot are int64 numbers and wrap
    around as numpy's do; a call into matplotlib is recorded with its
    arguments and does not fail, except for [ax.set], which refuses tick
    labels that do not match the ticks; resizing the figure is recorded by
    its two factors. *)

From Stdlib Require Import QArith.
From stdpp Require Import base gmap list strings sorting.

Set Warnings "-register-all".
Set Warnings "-clear-no-such-hyp".

Local Open Scope Z_scope.
Local Open Scope string_scope.
Local Open Scope list_scope.

(** ** Python values *)

(** The values a caller can pass.  An ndarray is given by its elements, an
    array of more dimensions by arrays as elements.  [PyOther cls] stands
    for an instance of any class that is none of the listed ones and derives
    from none of them: it has no length, cannot be iterated and equals no
    string. *)
Inductive pyobj : Type :=
| PyNone
| PyBool (b : bool)
| PyInt (n : Z)
| PyStr (s : string)
| PyList (items : list pyobj)
| PyTuple (items : list pyobj)
| PyNdarray (items : list pyobj)
| PyDict (entries : list (pyobj * pyobj))
| PyOther (cls : string).

(** [isinstance(x, list)] *)
Definition isinstance_list (x : pyobj) : bool :=
  match x with PyList _ => true | _ => false end.

(** [isinstance(x, np.ndarray)] *)
Definition isinstance_ndarray (x : pyobj) : bool :=
  match x with PyNdarray _ => true | _ => false end.

(** [isinstance(x, dict)] *)
Definition isinstance_dict (x : pyobj) : bool :=
  match x with PyDict _ => true | _ => false end.

(** [isinstance(x, str)] *)
Definition isinstance_str (x : pyobj) : bool :=
  match x with PyStr _ => true | _ => false end.

(** [x is None] and [x is True] *)
Definition is_none (x : pyobj) : bool :=
  match x with PyNone => true | _ => false end.

Definition is_true (x : pyobj) : bool :=
  match x with PyBool true => true | _ => false end.

(** [name == x] for a string [name]: a Boolean, and for an ndarray the
    array of the comparisons of its elements. *)
Fixpoint py_eq_str (x : pyobj) (name : string) : pyobj :=
  match x with
  | PyStr s => PyBool (String.eqb s name)
  | PyNdarray items => PyNdarray (map (fun y => py_eq_str y name) items)
  | _ => PyBool false
  end.

(** [len(x)]; [None] when the object has no length. *)
Definition py_len (x : pyobj) : option nat :=
  match x with
  | PyStr s => Some (String.length s)
  | PyList l | PyTuple l | PyNdarray l => Some (length l)
  | PyDict d => Some (length d)
  | _ => None
  end.

(** The characters of a string, each as a one-character [str]. *)
Fixpoint py_chars (s : string) : list pyobj :=
  match s with
  | EmptyString => []
  | String c rest => PyStr (String c EmptyString) :: py_chars rest
  end.

(** [x.items()] of a dict. *)
Definition py_items (x : pyobj) : option (list (pyobj * pyobj)) :=
  match x with
  | PyDict d => Some d
  | _ => None
  end.

(** [list(x)]; [None] when the object is not iterable. *)
Definition py_list (x : pyobj) : option (list pyobj) :=
  match x with
  | PyStr s => Some (py_chars s)
  | PyList l | PyTuple l | PyNdarray l => Some l
  | PyDict d => Some (map fst d)
  | _ => None
  end.

(** [bool(x)], as [if x:] computes it; [None] when numpy refuses to give an
    array of several elements a truth value. *)
Fixpoint py_truth (x : pyobj) : option bool :=
  match x with
  | PyNone => Some false
  | PyBool b => Some b
  | PyInt n => Some (negb (n =? 0)%Z)
  | PyStr s => Some (negb (String.eqb s EmptyString))
  | PyList l | PyTuple l => Some (match l with [] => false | _ => true end)
  | PyNdarray [] => Some false
  | PyNdarray [y] => py_truth y
  | PyNdarray _ => None
  | PyDict d => Some (match d with [] => false | _ => true end)
  | PyOther _ => Some true
  end.

(** ** Exceptions *)

(** The text of a [ValueError].  The two formatted messages keep their
    arguments instead of the formatted string. *)
Inductive message : Type :=
| array_needs_list            (* "`array` needs to be a list of values!" *)
| array_needs_dictionary      (* "`array` needs to be a dictionary of values!" *)
| dict_needs_string_keys      (* "`dict_arrays` needs string keys!" *)
| dict_needs_lists_values     (* "`dict_arrays` needs lists values!" *)
| style_not_supported (style_sheet : pyobj) (available : list string)
| linestyle_not_in_styles (use_linestyle : pyobj) (linestyles : list string)
| lengths_differ              (* "`y_true` needs to have same length as `y_pred`!" *)
| truth_value_ambiguous       (* numpy: truth value of an array *)
| zero_size_reduction         (* numpy: max of an empty array *)
| ticklabels_mismatch (ticks labels : nat).
                              (* matplotlib: number of ticks and of labels *)

Inductive exn : Type :=
| ValueError (msg : message)
| AssertionError
| IndexError
| KeyError
| TypeError
| AttributeError
| OverflowError.

(** The errors the three functions raise themselves with a [raise
    ValueError(...)] statement. *)
Definition validation_error (e : exn) : bool :=
  match e with
  | ValueError truth_value_ambiguous | ValueError zero_size_reduction
  | ValueError (ticklabels_mismatch _ _) => false
  | ValueError _ => true
  | _ => false
  end.

(** ** numpy numbers and arrays *)

(** A float64 without rounding: a rational, an infinity or NaN. *)
Inductive npfloat : Type :=
| Fin (q : Q)
| PInf
| NInf
| NaN.

(** A two-dimensional array of dtype int or float. *)
Inductive ndarray : Type :=
| IntArray (rows : list (list Z))
| FloatArray (rows : list (list npfloat)).

(** ** The plotting library *)

(** What [xticklabels] and [yticklabels] receive: the caller's list of
    names, or the set of labels of [y_true]. *)
Inductive ticklabels : Type :=
| names_list (names : list pyobj)
| labels_set (labels : gset Z).

(** One call into matplotlib (or [print]), with the arguments it was given. *)
Inductive call : Type :=
| plt_subplot (nrows ncols index : Z)
| plt_plot (steps : list Z) (array linestyle label : pyobj)
| plt_title (title : pyobj)
| plt_xlabel (xlabel : pyobj)
| plt_ylabel (ylabel : pyobj)
| plt_legend (loc : string)
| plt_grid (visible : pyobj)
| plt_tight_layout
| fig_scale_size_inches (width height : Q)
| fig_savefig (fname dpi : pyobj)
| plt_show
| py_print (text : string)
| py_print_array (cm : ndarray)
| plt_subplots
| ax_imshow (cm : ndarray) (interpolation : string) (cmap : pyobj)
| fig_colorbar
| ax_set (xticks yticks : list Z) (xticklabels yticklabels : ticklabels)
         (title : pyobj) (ylabel xlabel : string)
| plt_setp_xticklabels (rotation : Z) (ha rotation_mode : string)
| ax_text (x y : Z) (cell : Z + npfloat) (fmt ha va color : string)
| fig_tight_layout.

(** The state of the plotting library that outlives a call. *)
Record plt_state : Type := mk_plt_state {
  style_available : list string;   (* plt.style.available *)
  active_style : pyobj;            (* the style sheet last given to plt.style.use *)
  calls : list call                (* every call made so far, oldest first *)
}.

(** ** Statements: state passing with exceptions *)

Inductive outcome (A : Type) : Type :=
| Returns (a : A)
| Raises (e : exn).
Arguments Returns {A} a.
Arguments Raises {A} e.

Definition stmt (A : Type) : Type := plt_state -> outcome A * plt_state.

Definition ret {A} (a : A) : stmt A := fun st => (Returns a, st).

Definition raise {A} (e : exn) : stmt A := fun st => (Raises e, st).

Definition bind {A B} (c : stmt A) (k : A -> stmt B) : stmt B :=
  fun st =>
    match c st with
    | (Returns a, st') => k a st'
    | (Raises e, st') => (Raises e, st')
    end.

Notation "x <- c ;; k" := (bind c (fun x => k))
  (at level 100, c at next level, right associativity).
Notation "c ;; k" := (bind c (fun _ => k))
  (at level 100, right associativity).

(** [pass]: the empty statement, and the value of [... else None]. *)
Definition pass : stmt unit := ret tt.

(** The state after the library calls [cs] were made. *)
Definition add_calls (st : plt_state) (cs : list call) : plt_state :=
  mk_plt_state (style_available st) (active_style st) (calls st ++ cs).

(** The state after [plt.style.use(style_sheet)]. *)
Definition use_style (st : plt_state) (style_sheet : pyobj) : plt_state :=
  mk_plt_state (style_available st) style_sheet (calls st).

(** Record one library call. *)
Definition emit (c : call) : stmt unit :=
  fun st => (Returns tt, add_calls st [c]).

(** [plt.style.available] *)
Definition plt_style_available : stmt (list string) :=
  fun st => (Returns (style_available st), st).

(** [plt.style.use(style_sheet)] *)
Definition plt_style_use (style_sheet : pyobj) : stmt unit :=
  fun st => (Returns tt, use_style st style_sheet).

(** An operation that reads no state: it returns or raises at once. *)
Definition lift {A} (o : outcome A) : stmt A := fun st => (o, st).

Definition from_option {A} (e : exn) (o : option A) : outcome A :=
  match o with
  | Some a => Returns a
  | None => Raises e
  end.

(** An operation that raises [e] when the value is missing. *)
Definition or_raise {A} (e : exn) (o : option A) : stmt A :=
  lift (from_option e o).

(** [for x in xs: body(x)] *)
Fixpoint for_each {A} (xs : list A) (body : A -> stmt unit) : stmt unit :=
  match xs with
  | [] => pass
  | x :: rest => body x ;; for_each rest body
  end.

(** [enumerate(xs, start)] *)
Fixpoint enumerate_from {A} (start : nat) (xs : list A) : list (nat * A) :=
  match xs with
  | [] => []
  | x :: rest => (start, x) :: enumerate_from (S start) rest
  end.

(** [enumerate(xs)] *)
Definition enumerate {A} (xs : list A) : list (nat * A) := enumerate_from 0 xs.

(** [x in names] for a list of strings: the names are compared with [x] in
    their order until a comparison is true; numpy raises a ValueError when
    the comparison with an array has no truth value. *)
Fixpoint py_contains (x : pyobj) (names : list string) : outcome bool :=
  match names with
  | [] => Returns false
  | name :: rest =>
      match py_truth (py_eq_str x name) with
      | Some true => Returns true
      | Some false => py_contains x rest
      | None => Raises (ValueError truth_value_ambiguous)
      end
  end.

(** [x in names] is true. *)
Definition py_in (x : pyobj) (names : list string) : bool :=
  match py_contains x names with
  | Returns found => found
  | Raises _ => false
  end.

(** [key == i] for an integer [i], as a dict lookup compares keys. *)
Definition py_eq_int (key : pyobj) (i : Z) : bool :=
  match key with
  | PyInt n => (n =? i)%Z
  | PyBool b => ((if b then 1 else 0) =? i)%Z
  | _ => false
  end.

(** [x[i]] for an index [i >= 0]. *)
Definition py_getitem (x : pyobj) (i : nat) : outcome pyobj :=
  match x with
  | PyList l | PyTuple l | PyNdarray l => from_option IndexError (l !! i)
  | PyStr s => from_option IndexError (py_chars s !! i)
  | PyDict d =>
      from_option KeyError
        (snd <$> List.find (fun kv => py_eq_int (fst kv) (Z.of_nat i)) d)
  | _ => Raises TypeError
  end.

(** ** The steps on the x axis *)

(** An integer as an int64 holds it: numpy's products wrap around. *)
Definition wrap_int64 (z : Z) : Z := (z + 2 ^ 63) mod 2 ^ 64 - 2 ^ 63.

(** A Python int that an int64 can hold. *)
Definition fits_int64 (z : Z) : bool := (- 2 ^ 63 <=? z)%Z && (z <? 2 ^ 63)%Z.

(** A Python int that rounds to a finite float64. *)
Definition fits_float64 (z : Z) : bool := (Z.abs z <? 2 ^ 1024 - 2 ^ 970)%Z.

(** The int64 products [1 * step_size, ..., n * step_size]. *)
Definition int64_steps (n : nat) (step_size : Z) : list Z :=
  map (fun i => wrap_int64 (i * step_size)) (seqZ 1 (Z.of_nat n)).

(** [np.array(range(1, n + 1)) * step_size] for an int [step_size].  The
    array of a non-empty range is int64: numpy raises an OverflowError for
    a [step_size] that an int64 cannot hold, and the products wrap around.
    The array of the empty range is an empty float64 array, and
    [step_size] is converted to a float64. *)
Definition np_steps (n : nat) (step_size : Z) : outcome (list Z) :=
  match n with
  | O => if fits_float64 step_size then Returns [] else Raises OverflowError
  | S _ =>
      if fits_int64 step_size then Returns (int64_steps n step_size)
      else Raises OverflowError
  end.

(** ** plot_array *)

Definition linestyles : list string := ["-"; "--"; "-."; ":"].

Definition plot_array (array : pyobj) (step_size : Z)
    (use_label use_title use_xlabel use_ylabel style_sheet use_grid : pyobj)
    (width height : Q) (use_linestyle use_dpi path show_plot : pyobj)
  : stmt unit :=
  (* check if `array` is correct format *)
  (if negb (isinstance_list array) || isinstance_ndarray array
   then raise (ValueError array_needs_list) else pass) ;;
  available <- plt_style_available ;;
  supported <- lift (py_contains style_sheet available) ;;
  (if supported
   then plt_style_use style_sheet
   else raise (ValueError (style_not_supported style_sheet available))) ;;
  (* check if linestyle is set right *)
  supported <- lift (py_contains use_linestyle linestyles) ;;
  (if negb supported
   then raise (ValueError (linestyle_not_in_styles use_linestyle linestyles))
   else pass) ;;
  (* set steps plotted on x-axis *)
  n <- or_raise TypeError (py_len array) ;;
  steps <- lift (np_steps n step_size) ;;
  emit (plt_subplot 1 2 1) ;;
  emit (plt_plot steps array use_linestyle use_label) ;;
  emit (plt_title use_title) ;;
  emit (plt_xlabel use_xlabel) ;;
  emit (plt_ylabel use_ylabel) ;;
  (if negb (is_none use_label) then emit (plt_legend "best") else pass) ;;
  emit (plt_grid use_grid) ;;
  emit plt_tight_layout ;;
  emit (fig_scale_size_inches width height) ;;
  (if negb (is_none path) then emit (fig_savefig path use_dpi) else pass) ;;
  (if is_true show_plot then emit plt_show else pass) ;;
  ret tt.

(** ** plot_dict *)

(** The body of the loop over [dict_arrays.items()] that checks the format. *)
Definition check_entry (entry : pyobj * pyobj) : stmt unit :=
  let '(label, array) := entry in
  (if negb (isinstance_str label)
   then raise (ValueError dict_needs_string_keys) else pass) ;;
  (if negb (isinstance_list array) || isinstance_ndarray array
   then raise (ValueError dict_needs_lists_values) else pass).

(** The body of the loop over [use_linestyles]. *)
Definition check_linestyle (use_linestyle : pyobj) : stmt unit :=
  supported <- lift (py_contains use_linestyle linestyles) ;;
  if negb supported
  then raise (ValueError (linestyle_not_in_styles use_linestyle linestyles))
  else pass.

(** The body of the loop that plots one line per entry. *)
Definition plot_entry (step_size : Z) (use_linestyles : pyobj)
    (row : nat * (pyobj * pyobj)) : stmt unit :=
  let '(index, (use_label, array)) := row in
  n <- or_raise TypeError (py_len array) ;;
  steps <- lift (np_steps n step_size) ;;
  linestyle <- lift (py_getitem use_linestyles index) ;;
  emit (plt_plot steps array linestyle use_label).

Definition plot_dict (dict_arrays : pyobj) (step_size : Z)
    (use_title use_xlabel use_ylabel style_sheet use_grid : pyobj)
    (width height : Q) (use_linestyles use_dpi path show_plot : pyobj)
  : stmt unit :=
  (* check if `dict_arrays` is correct format *)
  (if negb (isinstance_dict dict_arrays)
   then raise (ValueError array_needs_dictionary) else pass) ;;
  items <- or_raise AttributeError (py_items dict_arrays) ;;
  for_each items check_entry ;;
  (* make sure style sheet is correct *)
  available <- plt_style_available ;;
  supported <- lift (py_contains style_sheet available) ;;
  (if supported
   then plt_style_use style_sheet
   else raise (ValueError (style_not_supported style_sheet available))) ;;
  use_linestyles <-
    (if is_none use_linestyles
     then ret (PyList (replicate (length items) (PyStr "-")))
     else
       entries <- or_raise TypeError (py_list use_linestyles) ;;
       for_each entries check_linestyle ;;
       ret use_linestyles) ;;
  emit (plt_subplot 1 2 1) ;;
  for_each (enumerate items) (plot_entry step_size use_linestyles) ;;
  emit (plt_title use_title) ;;
  emit (plt_xlabel use_xlabel) ;;
  emit (plt_ylabel use_ylabel) ;;
  emit (plt_legend "best") ;;
  emit (plt_grid use_grid) ;;
  emit plt_tight_layout ;;
  emit (fig_scale_size_inches width height) ;;
  (if negb (is_none path) then emit (fig_savefig path use_dpi) else pass) ;;
  (if is_true show_plot then emit plt_show else pass) ;;
  ret tt.

(** ** numpy arithmetic *)

Definition Qis_zero (q : Q) : bool := (Qnum q =? 0)%Z.
Definition Qis_pos (q : Q) : bool := (0 <? Qnum q)%Z.

(** [x / y] on floats: division by zero gives an infinity, or NaN for 0/0
    (numpy warns and does not raise). *)
Definition np_divide (x y : npfloat) : npfloat :=
  match x, y with
  | NaN, _ | _, NaN => NaN
  | Fin a, Fin b =>
      if Qis_zero b
      then (if Qis_zero a then NaN else if Qis_pos a then PInf else NInf)
      else Fin (a / b)
  | Fin _, _ => Fin 0
  | PInf, Fin b => if Qis_zero b || Qis_pos b then PInf else NInf
  | NInf, Fin b => if Qis_zero b || Qis_pos b then NInf else PInf
  | _, _ => NaN
  end.

(** [x + y] on floats. *)
Definition np_add (x y : npfloat) : npfloat :=
  match x, y with
  | NaN, _ | _, NaN => NaN
  | Fin a, Fin b => Fin (a + b)
  | PInf, NInf | NInf, PInf => NaN
  | PInf, _ | _, PInf => PInf
  | NInf, _ | _, NInf => NInf
  end.

(** [x > y] on floats: false as soon as one side is NaN. *)
Definition np_greater (x y : npfloat) : bool :=
  match x, y with
  | NaN, _ | _, NaN => false
  | Fin a, Fin b => negb (Qle_bool a b)
  | PInf, PInf | NInf, _ | Fin _, PInf => false
  | PInf, _ | Fin _, NInf => true
  end.

(** The larger of two floats, NaN when one of them is NaN. *)
Definition np_maximum (x y : npfloat) : npfloat :=
  match x, y with
  | NaN, _ | _, NaN => NaN
  | _, _ => if np_greater y x then y else x
  end.

(** [cm.astype('float')] on the rows of an int array. *)
Definition astype_float (rows : list (list Z)) : list (list npfloat) :=
  map (map (fun c => Fin (inject_Z c))) rows.

(** [cm.sum(axis=1)] on the rows of an int array. *)
Definition sum_axis1 (rows : list (list Z)) : list Z :=
  map (foldr Z.add 0) rows.

(** [rows / column[:, np.newaxis]]: row [i] is divided by [column[i]]. *)
Definition divide_by_column (rows : list (list npfloat)) (column : list Z)
  : list (list npfloat) :=
  zip_with (fun row s => map (fun x => np_divide x (Fin (inject_Z s))) row)
           rows column.

(** The cells of an array read as floats. *)
Definition float_rows (cm : ndarray) : list (list npfloat) :=
  match cm with
  | IntArray rows => astype_float rows
  | FloatArray rows => rows
  end.

(** [cm.shape] *)
Definition shape (cm : ndarray) : nat * nat :=
  match cm with
  | IntArray rows => (length rows, length (hd [] rows))
  | FloatArray rows => (length rows, length (hd [] rows))
  end.

(** [cm[i, j]] *)
Definition cell_at (cm : ndarray) (i j : nat) : option (Z + npfloat) :=
  match cm with
  | IntArray rows => row ← rows !! i; inl <$> row !! j
  | FloatArray rows => row ← rows !! i; inr <$> row !! j
  end.

Definition cell_float (c : Z + npfloat) : npfloat :=
  match c with
  | inl n => Fin (inject_Z n)
  | inr x => x
  end.

(** [cm.max()]: numpy raises a ValueError on an array without elements. *)
Definition np_max (cm : ndarray) : option npfloat :=
  match concat (float_rows cm) with
  | [] => None
  | x :: rest => Some (foldl np_maximum x rest)
  end.

(** [np.arange(n)] *)
Definition np_arange (n : nat) : list Z := seqZ 0 (Z.of_nat n).

(** ** sklearn.metrics.confusion_matrix *)

(** Insert a label into a strictly increasing list of labels. *)
Fixpoint insert_label (x : Z) (labels : list Z) : list Z :=
  match labels with
  | [] => [x]
  | y :: rest =>
      if (x <? y)%Z then x :: labels
      else if (x =? y)%Z then labels
      else y :: insert_label x rest
  end.

(** The distinct labels of [y_true] and [y_pred] in increasing order. *)
Definition unique_labels (y_true y_pred : list Z) : list Z :=
  foldr insert_label [] (y_true ++ y_pred).

(** The number of samples whose true label is [t] and predicted label [p]. *)
Fixpoint count_pairs (t p : Z) (samples : list (Z * Z)) : Z :=
  match samples with
  | [] => 0
  | (t', p') :: rest =>
      (if (t' =? t)%Z && (p' =? p)%Z then 1 else 0) + count_pairs t p rest
  end.

(** Modelled from the spec: [confusion_matrix] is imported from
    [sklearn.metrics] and its code is not in the source file.  The spec
    calls it "a table of counts of predicted vs. true classification labels"
    with row i the true class i and column j the predicted class j; the
    classes are the distinct labels of both arguments in increasing order,
    as scikit-learn documents.  What scikit-learn does with label sequences
    that are empty is left out: the table is then empty. *)
Definition confusion_matrix (y_true y_pred : list Z) : list (list Z) :=
  let labels := unique_labels y_true y_pred in
  let samples := zip y_true y_pred in
  map (fun t => map (fun p => count_pairs t p samples) labels) labels.

(** ** plot_confusion_matrix *)

(** The body of the two loops that write the value of each cell. *)
Definition annotate_cell (cm : ndarray) (fmt : string) (thresh : npfloat)
    (i j : nat) : stmt unit :=
  cell <- or_raise IndexError (cell_at cm i j) ;;
  emit (ax_text (Z.of_nat j) (Z.of_nat i) cell fmt "center" "center"
                (if np_greater (cell_float cell) thresh
                 then "white" else "black")).

(** The number of tick labels. *)
Definition ticklabels_length (labels : ticklabels) : nat :=
  match labels with
  | names_list names => length names
  | labels_set labels => size labels
  end.

(** matplotlib takes the tick labels of an axis with [nticks] ticks: there
    are none, or one per tick. *)
Definition ticklabels_fit (nticks : nat) (labels : ticklabels) : bool :=
  (ticklabels_length labels =? 0)%nat || (ticklabels_length labels =? nticks)%nat.

(** [ax.set(xticks=..., yticks=..., xticklabels=..., yticklabels=...,
    title=..., ylabel=..., xlabel=...)].  matplotlib sets the ticks and
    then the tick labels, and raises a ValueError for tick labels that are
    neither none nor as many as the ticks. *)
Definition ax_set_checked (xticks yticks : list Z)
    (xticklabels yticklabels : ticklabels) (title : pyobj)
    (ylabel xlabel : string) : stmt unit :=
  emit (ax_set xticks yticks xticklabels yticklabels title ylabel xlabel) ;;
  (if ticklabels_fit (length xticks) xticklabels then pass
   else raise (ValueError (ticklabels_mismatch (length xticks)
                             (ticklabels_length xticklabels)))) ;;
  (if ticklabels_fit (length yticks) yticklabels then pass
   else raise (ValueError (ticklabels_mismatch (length yticks)
                             (ticklabels_length yticklabels)))).

(** [if x:] on a Python value. *)
Definition truth (x : pyobj) : stmt bool :=
  or_raise (ValueError truth_value_ambiguous) (py_truth x).

Definition plot_confusion_matrix (y_true y_pred : list Z) (classes : pyobj)
    (normalize : bool) (title cmap image : pyobj) (verbose : Z) (magnify : Q)
    (dpi : pyobj)
  : stmt ndarray :=
  (* make sure lengths match *)
  (if negb (length y_true =? length y_pred)%nat
   then raise (ValueError lengths_differ) else pass) ;;
  (* Class labels setup. If none, generate from y_true y_pred *)
  classes <- or_raise TypeError (py_list classes) ;;
  classes <-
    (match classes with
     | _ :: _ =>
         (if (size (list_to_set y_true : gset Z) =? length classes)%nat
          then pass else raise AssertionError) ;;
         ret (names_list classes)
     | [] => ret (labels_set (list_to_set y_true))
     end) ;;
  (* Title setup *)
  has_title <- truth title ;;
  let title :=
    if negb has_title
    then (if normalize
          then PyStr "Normalized confusion matrix"
          else PyStr "Confusion matrix, without normalization")
    else title in
  (* Compute confusion matrix *)
  let cm := IntArray (confusion_matrix y_true y_pred) in
  (* Normalize setup *)
  cm <-
    (if normalize
     then
       let counts := confusion_matrix y_true y_pred in
       let cm := FloatArray (divide_by_column (astype_float counts)
                                              (sum_axis1 counts)) in
       emit (py_print "Normalized confusion matrix") ;;
       ret cm
     else
       emit (py_print "Confusion matrix, without normalization") ;;
       ret cm) ;;
  (* Print if verbose *)
  (if (0 <? verbose)%Z then emit (py_print_array cm) else pass) ;;
  (* Plot setup *)
  emit plt_subplots ;;
  emit (ax_imshow cm "nearest" cmap) ;;
  emit fig_colorbar ;;
  ax_set_checked (np_arange (snd (shape cm))) (np_arange (fst (shape cm)))
                 classes classes title "True label" "Predicted label" ;;
  emit (plt_setp_xticklabels 45 "right" "anchor") ;;
  emit (plt_grid (PyBool false)) ;;
  (* Loop over data dimensions and create text annotations. *)
  let fmt := if normalize then ".2f" else "d" in
  top <- or_raise (ValueError zero_size_reduction) (np_max cm) ;;
  let thresh := np_divide top (Fin 2) in
  for_each (seq 0 (fst (shape cm))) (fun i =>
    for_each (seq 0 (snd (shape cm))) (fun j =>
      annotate_cell cm fmt thresh i j)) ;;
  emit fig_tight_layout ;;
  emit (fig_scale_size_inches magnify magnify) ;;
  save <- truth image ;;
  (if save then emit (fig_savefig image dpi) else pass) ;;
  ret cm.

(** ** Reading the trace of a call *)

(** The arguments of the line-plot calls of a trace:
    (x values, y values, linestyle, label). *)
Definition plot_calls (cs : list call) : list (list Z * pyobj * pyobj * pyobj) :=
  flat_map (fun c =>
    match c with
    | plt_plot steps array linestyle label => [(steps, array, linestyle, label)]
    | _ => []
    end) cs.

(** The arguments of the file-save calls of a trace: (file name, dpi). *)
Definition savefig_calls (cs : list call) : list (pyobj * pyobj) :=
  flat_map (fun c =>
    match c with
    | fig_savefig fname dpi => [(fname, dpi)]
    | _ => []
    end) cs.


(** ** What the loops do, as functions of their input *)

(** The outcome of a loop whose body only checks: the first error, if any. *)
Fixpoint first_raise {A} (check : A -> outcome unit) (xs : list A) : outcome unit :=
  match xs with
  | [] => Returns tt
  | x :: rest =>
      match check x with
      | Returns _ => first_raise check rest
      | Raises e => Raises e
      end
  end.

Definition entry_outcome (entry : pyobj * pyobj) : outcome unit :=
  if negb (isinstance_str (fst entry))
  then Raises (ValueError dict_needs_string_keys)
  else if negb (isinstance_list (snd entry)) || isinstance_ndarray (snd entry)
  then Raises (ValueError dict_needs_lists_values)
  else Returns tt.

(** How a check [if x not in names: raise ValueError(msg)] ends. *)
Definition membership_outcome (x : pyobj) (names : list string) (msg : message)
  : outcome unit :=
  match py_contains x names with
  | Returns true => Returns tt
  | Returns false => Raises (ValueError msg)
  | Raises e => Raises e
  end.

Definition style_outcome (style_sheet : pyobj) (available : list string)
  : outcome unit :=
  membership_outcome style_sheet available
    (style_not_supported style_sheet available).

Definition linestyle_outcome (use_linestyle : pyobj) : outcome unit :=
  membership_outcome use_linestyle linestyles
    (linestyle_not_in_styles use_linestyle linestyles).

(** The line-plot call with the arguments
    (x values, y values, linestyle, label). *)
Definition plot_of (args : list Z * pyobj * pyobj * pyobj) : call :=
  let '(steps, array, linestyle, label) := args in
  plt_plot steps array linestyle label.

(** The arguments of the line plots made for the rows of
    [enumerate(dict_arrays.items())], up to the first row that fails, and
    how the loop ends. *)
Fixpoint plotted (step_size : Z) (use_linestyles : pyobj)
    (rows : list (nat * (pyobj * pyobj)))
  : list (list Z * pyobj * pyobj * pyobj) * outcome unit :=
  match rows with
  | [] => ([], Returns tt)
  | (index, (use_label, array)) :: rest =>
      match py_len array with
      | None => ([], Raises TypeError)
      | Some n =>
          match np_steps n step_size with
          | Raises e => ([], Raises e)
          | Returns steps =>
              match py_getitem use_linestyles index with
              | Raises e => ([], Raises e)
              | Returns linestyle =>
                  let '(plots, r) := plotted step_size use_linestyles rest in
                  ((steps, array, linestyle, use_label) :: plots, r)
              end
          end
      end
  end.


(** An entry [plot_dict] accepts: a string key with a list value. *)
Definition valid_entry (entry : pyobj * pyobj) : Prop :=
  isinstance_str (fst entry) = true /\ isinstance_list (snd entry) = true.



(** One of the four line styles, as a [str]. *)
Definition supported_linestyle (x : pyobj) : Prop :=
  exists s, x = PyStr s /\ s ∈ linestyles.

(** One of the available style sheets, by its name. *)
Definition supported_style (x : pyobj) (available : list string) : Prop :=
  exists s, x = PyStr s /\ s ∈ available.

(** How the checks of [use_linestyles] end. *)
Definition checked_linestyles (use_linestyles : pyobj) : outcome unit :=
  if is_none use_linestyles then Returns tt
  else match py_list use_linestyles with
       | Some entries => first_raise linestyle_outcome entries
       | None => Raises TypeError
       end.

(** The text annotations of the cells, row by row. *)
Definition annotations (cm : ndarray) (fmt : string) (thresh : npfloat) : list call :=
  flat_map (fun i =>
    flat_map (fun j =>
      match cell_at cm i j with
      | Some cell =>
          [ax_text (Z.of_nat j) (Z.of_nat i) cell fmt "center" "center"
                   (if np_greater (cell_float cell) thresh
                    then "white" else "black")]
      | None => []
      end) (seq 0 (snd (shape cm)))) (seq 0 (fst (shape cm))).

(** Every row is as long as the first one. *)
Definition rectangular {A} (rows : list (list A)) : Prop :=
  Forall (fun row => length row = length (hd [] rows)) rows.

Definition rectangular_array (cm : ndarray) : Prop :=
  match cm with
  | IntArray rows => rectangular rows
  | FloatArray rows => rectangular rows
  end.

(** Row [i] of the normalized matrix: each count over the sum of its row. *)
Definition normalized_row (row : list Z) : list npfloat :=
  map (fun c => np_divide (Fin (inject_Z c)) (Fin (inject_Z (foldr Z.add 0 row))))
      row.

(** ** The calls of an accepted call, in order *)

Definition plot_array_calls (steps : list Z) (array : pyobj)
    (use_label use_title use_xlabel use_ylabel use_grid : pyobj)
    (width height : Q) (use_linestyle use_dpi path show_plot : pyobj)
  : list call :=
  [plt_subplot 1 2 1;
   plt_plot steps array use_linestyle use_label;
   plt_title use_title; plt_xlabel use_xlabel; plt_ylabel use_ylabel] ++
  (if is_none use_label then [] else [plt_legend "best"]) ++
  [plt_grid use_grid; plt_tight_layout; fig_scale_size_inches width height] ++
  (if is_none path then [] else [fig_savefig path use_dpi]) ++
  (if is_true show_plot then [plt_show] else []).

Definition plot_dict_calls (plots : list (list Z * pyobj * pyobj * pyobj))
    (use_title use_xlabel use_ylabel use_grid : pyobj)
    (width height : Q) (use_dpi path show_plot : pyobj)
  : list call :=
  [plt_subplot 1 2 1] ++ map plot_of plots ++
  [plt_title use_title; plt_xlabel use_xlabel; plt_ylabel use_ylabel;
   plt_legend "best";
   plt_grid use_grid; plt_tight_layout; fig_scale_size_inches width height] ++
  (if is_none path then [] else [fig_savefig path use_dpi]) ++
  (if is_true show_plot then [plt_show] else []).

(** The list of line styles the plotting loop of [plot_dict] indexes. *)
Definition resolved_linestyles (entries : list (pyobj * pyobj))
    (use_linestyles : pyobj) : pyobj :=
  if is_none use_linestyles
  then PyList (replicate (length entries) (PyStr "-"))
  else use_linestyles.

(** The matrix [plot_confusion_matrix] hands back. *)
Definition returned_matrix (normalize : bool) (y_true y_pred : list Z) : ndarray :=
  let counts := confusion_matrix y_true y_pred in
  if normalize
  then FloatArray (divide_by_column (astype_float counts) (sum_axis1 counts))
  else IntArray counts.

(** The title of the heatmap. *)
Definition resolved_title (normalize has_title : bool) (title : pyobj) : pyobj :=
  if negb has_title
  then (if normalize
        then PyStr "Normalized confusion matrix"
        else PyStr "Confusion matrix, without normalization")
  else title.

(** The tick labels: the caller's names, or the set of labels of [y_true]. *)
Definition resolved_classes (y_true : list Z) (names : list pyobj) : ticklabels :=
  match names with
  | [] => labels_set (list_to_set y_true)
  | _ => names_list names
  end.

(** The assertion on the number of class names fails. *)
Definition assertion_fails (y_true : list Z) (names : list pyobj) : bool :=
  match names with
  | [] => false
  | _ => negb (size (list_to_set y_true : gset Z) =? length names)%nat
  end.

(** The calls up to [ax.set]. *)
Definition axes_calls (cm : ndarray) (classes : ticklabels)
    (normalize : bool) (title cmap : pyobj) (verbose : Z) : list call :=
  [py_print (if normalize then "Normalized confusion matrix"
             else "Confusion matrix, without normalization")] ++
  (if (0 <? verbose)%Z then [py_print_array cm] else []) ++
  [plt_subplots; ax_imshow cm "nearest" cmap; fig_colorbar;
   ax_set (np_arange (snd (shape cm))) (np_arange (fst (shape cm)))
          classes classes title "True label" "Predicted label"].

(** The calls up to the annotations. *)
Definition heatmap_calls (cm : ndarray) (classes : ticklabels)
    (normalize : bool) (title cmap : pyobj) (verbose : Z) : list call :=
  axes_calls cm classes normalize title cmap verbose ++
  [plt_setp_xticklabels 45 "right" "anchor";
   plt_grid (PyBool false)].

Definition plot_confusion_matrix_calls (cm : ndarray) (classes : ticklabels)
    (normalize : bool) (title cmap image : pyobj) (verbose : Z) (magnify : Q)
    (dpi : pyobj) (top : npfloat) (save : bool) : list call :=
  heatmap_calls cm classes normalize title cmap verbose ++
  annotations cm (if normalize then ".2f" else "d") (np_divide top (Fin 2)) ++
  [fig_tight_layout; fig_scale_size_inches magnify magnify] ++
  (if save then [fig_savefig image dpi] else []).

(** ** Sums of rows *)

(** The sum of a row of floats, left to right. *)
Definition np_sum (row : list npfloat) : npfloat := foldl np_add (Fin 0) row.

(** The row sums to 1. *)
Definition sums_to_one (row : list npfloat) : Prop :=
  match np_sum row with
  | Fin q => (q == 1)%Q
  | _ => False
  end.

(** ** More readers of a trace *)

(** What was printed: a line of text or the matrix. *)
Definition printed (cs : list call) : list (string + ndarray) :=
  flat_map (fun c =>
    match c with
    | py_print text => [inl text]
    | py_print_array cm => [inr cm]
    | _ => []
    end) cs.

(** The titles given to the axes of the heatmap. *)
Definition titles_given (cs : list call) : list pyobj :=
  flat_map (fun c =>
    match c with
    | ax_set _ _ _ _ title _ _ => [title]
    | _ => []
    end) cs.

(** The text annotations of a trace: (x, y, cell, colour). *)
Definition text_calls (cs : list call) : list (Z * Z * (Z + npfloat) * string) :=
  flat_map (fun c =>
    match c with
    | ax_text x y cell _ _ _ color => [(x, y, cell, color)]
    | _ => []
    end) cs.

(** The sequences [plot_dict] can both iterate and index by position: their
    elements in order. *)
Definition py_sequence (x : pyobj) : option (list pyobj) :=
  match x with
  | PyStr s => Some (py_chars s)
  | PyList l | PyTuple l | PyNdarray l => Some l
  | _ => None
  end.

(** The two line styles that are a single character. *)
Definition one_character_style (c : Ascii.ascii) : Prop :=
  String c EmptyString = "-" \/ String c EmptyString = ":".

(** ** Defaults and a state to run examples in *)

(** The default of [classes]: the empty string. *)
Definition default_classes : pyobj := PyStr EmptyString.

(** matplotlib with some of its style sheets, the default style active and
    nothing drawn yet. *)
Definition example_state : plt_state :=
  mk_plt_state
    ["Solarize_Light2"; "bmh"; "classic"; "dark_background"; "fast";
     "fivethirtyeight"; "ggplot"; "grayscale"; "tableau-colorblind10"]
    (PyStr "default") [].

(** * Properties *)

(** ** Statements *)

Lemma add_calls_nil st : add_calls st [] = st.
Proof. destruct st; unfold add_calls; simpl. by rewrite app_nil_r. Qed.

Lemma add_calls_app st cs1 cs2 :
  add_calls (add_calls st cs1) cs2 = add_calls st (cs1 ++ cs2).
Proof. unfold add_calls; simpl. by rewrite app_assoc. Qed.

Lemma bind_run {A B} (c : stmt A) (k : A -> stmt B) st a st1 :
  c st = (Returns a, st1) -> bind c k st = k a st1.
Proof. intros H. unfold bind. by rewrite H. Qed.

Lemma bind_emit {A} (c : call) (k : unit -> stmt A) st :
  bind (emit c) k st = k tt (add_calls st [c]).
Proof. reflexivity. Qed.

Lemma for_each_checks {A} (body : A -> stmt unit) (check : A -> outcome unit) xs :
  (forall x st, body x st = (check x, st)) ->
  forall st, for_each xs body st = (first_raise check xs, st).
Proof.
  intros Hbody. induction xs as [|x rest IH]; intros st; simpl; [done|].
  unfold bind. rewrite Hbody. destruct (check x) as [[]|e]; [apply IH | done].
Qed.

Lemma for_each_emits {A} (body : A -> stmt unit) (out : A -> list call) xs :
  (forall x st, x ∈ xs -> body x st = (Returns tt, add_calls st (out x))) ->
  forall st, for_each xs body st = (Returns tt, add_calls st (flat_map out xs)).
Proof.
  induction xs as [|x rest IH]; intros Hbody st; simpl.
  - by rewrite add_calls_nil.
  - unfold bind. rewrite Hbody by apply list_elem_of_here.
    rewrite IH by (intros; apply Hbody; by apply list_elem_of_further).
    by rewrite add_calls_app.
Qed.

(** A check that passes on every element lets the loop through. *)
Lemma first_raise_passes {A} (check : A -> outcome unit) xs :
  Forall (fun x => check x = Returns tt) xs -> first_raise check xs = Returns tt.
Proof. induction 1 as [|x rest Hx _ IH]; simpl; [done|]. by rewrite Hx. Qed.

(** A loop of checks ends with the error of one of its elements. *)
Lemma first_raise_raises {A} (check : A -> outcome unit) xs e :
  first_raise check xs = Raises e -> exists x, x ∈ xs /\ check x = Raises e.
Proof.
  induction xs as [|x rest IH]; simpl; [done|].
  destruct (check x) as [[]|e'] eqn:Hx.
  - intros H. destruct (IH H) as (y & Hy & He). exists y.
    split; [by apply list_elem_of_further | done].
  - intros [= ->]. exists x. split; [apply list_elem_of_here | done].
Qed.

(** ... and it does raise when an element fails: the first failure wins. *)
Lemma first_raise_fails {A} (check : A -> outcome unit) xs x e :
  x ∈ xs -> check x = Raises e ->
  exists y e', y ∈ xs /\ check y = Raises e' /\ first_raise check xs = Raises e'.
Proof.
  induction xs as [|z rest IH]; intros Hin Hx; [by apply elem_of_nil in Hin|].
  simpl. destruct (check z) as [[]|e'] eqn:Hz.
  - apply elem_of_cons in Hin as [->|Hin]; [congruence|].
    destruct (IH Hin Hx) as (y & e'' & Hy & Hc & Hr).
    exists y, e''. split; [by apply list_elem_of_further | done].
  - exists z, e'. split; [apply list_elem_of_here | done].
Qed.

(** ** Membership tests *)

Lemma py_contains_str s names :
  py_contains (PyStr s) names = Returns (existsb (String.eqb s) names).
Proof.
  induction names as [|name rest IH]; simpl; [done|].
  by destruct (String.eqb s name).
Qed.

Lemma py_in_str s names : py_in (PyStr s) names = true <-> s ∈ names.
Proof.
  unfold py_in. rewrite py_contains_str, existsb_exists. split.
  - intros (name & Hin & Heq). apply String.eqb_eq in Heq as ->.
    by apply list_elem_of_In.
  - intros Hin. exists s. split; [by apply list_elem_of_In | apply String.eqb_refl].
Qed.

Lemma py_contains_raises x names e :
  py_contains x names = Raises e -> e = ValueError truth_value_ambiguous.
Proof.
  induction names as [|name rest IH]; simpl; [done|].
  destruct (py_truth (py_eq_str x name)) as [[]|]; [done|exact IH|].
  by intros [= <-].
Qed.

Arguments py_contains : simpl never.

Lemma membership_passes x names msg :
  py_in x names = true -> membership_outcome x names msg = Returns tt.
Proof.
  unfold py_in, membership_outcome.
  destruct (py_contains x names) as [[]|e]; done.
Qed.

Lemma membership_returns x names msg :
  membership_outcome x names msg = Returns tt -> py_in x names = true.
Proof.
  unfold py_in, membership_outcome.
  destruct (py_contains x names) as [[]|e]; done.
Qed.

Lemma membership_raises x names msg e :
  membership_outcome x names msg = Raises e ->
  py_in x names = false /\
  (e = ValueError msg \/ e = ValueError truth_value_ambiguous).
Proof.
  unfold py_in, membership_outcome.
  destruct (py_contains x names) as [[]|e'] eqn:Hx; [done| |].
  - intros [= <-]. auto.
  - intros [= <-]. apply py_contains_raises in Hx. auto.
Qed.

Lemma membership_fails x names msg :
  py_in x names = false ->
  exists e, membership_outcome x names msg = Raises e /\
            (e = ValueError msg \/ e = ValueError truth_value_ambiguous).
Proof.
  intros Hin. destruct (membership_outcome x names msg) as [[]|e] eqn:Hx.
  - apply membership_returns in Hx. congruence.
  - exists e. split; [done|]. by apply membership_raises in Hx as [_ ?].
Qed.

(** A validation error of a membership test is the one of its [raise]. *)
Lemma membership_validation_error x names msg e :
  membership_outcome x names msg = Raises e -> validation_error e = true ->
  e = ValueError msg.
Proof. intros H He. by apply membership_raises in H as [_ [->| ->]]. Qed.

(** ** The steps *)


Lemma np_steps_returns n step_size steps :
  np_steps n step_size = Returns steps -> steps = int64_steps n step_size.
Proof.
  unfold np_steps. destruct n as [|n].
  - destruct (fits_float64 step_size); by intros [= <-].
  - destruct (fits_int64 step_size); by intros [= <-].
Qed.

Lemma np_steps_raises n step_size e :
  np_steps n step_size = Raises e -> e = OverflowError.
Proof.
  unfold np_steps. destruct n as [|n].
  - destruct (fits_float64 step_size); by intros [= <-].
  - destruct (fits_int64 step_size); by intros [= <-].
Qed.

(** ** plot_array, stage by stage *)

Lemma plot_array_unfold array step_size use_label use_title use_xlabel
    use_ylabel style_sheet use_grid width height use_linestyle use_dpi path
    show_plot st :
  plot_array array step_size use_label use_title use_xlabel use_ylabel
    style_sheet use_grid width height use_linestyle use_dpi path show_plot st =
  match array with
  | PyList items =>
      match style_outcome style_sheet (style_available st) with
      | Raises e => (Raises e, st)
      | Returns _ =>
          let st1 := use_style st style_sheet in
          match linestyle_outcome use_linestyle with
          | Raises e => (Raises e, st1)
          | Returns _ =>
              match np_steps (length items) step_size with
              | Raises e => (Raises e, st1)
              | Returns steps =>
                  (Returns tt,
                   add_calls st1
                     (plot_array_calls steps array use_label use_title
                        use_xlabel use_ylabel use_grid width height
                        use_linestyle use_dpi path show_plot))
              end
          end
      end
  | _ => (Raises (ValueError array_needs_list), st)
  end.
Proof.
  unfold plot_array.
  destruct array as [| | | |items| | | |]; try reflexivity.
  unfold bind at 1. simpl. unfold bind at 1. simpl.
  unfold bind at 1. unfold lift at 1.
  unfold style_outcome, membership_outcome.
  destruct (py_contains style_sheet (style_available st)) as [[]|e]; [|done..].
  unfold bind at 1. simpl. unfold bind at 1. unfold lift at 1.
  unfold linestyle_outcome, membership_outcome.
  destruct (py_contains use_linestyle linestyles) as [[]|e]; [|done..].
  unfold bind at 1. simpl. unfold bind at 1. simpl.
  unfold bind at 1. unfold lift at 1.
  destruct (np_steps (length items) step_size) as [steps|e]; [|done].
  unfold plot_array_calls, bind.
  destruct (is_none use_label), (is_none path), (is_true show_plot); simpl;
    unfold add_calls; simpl; rewrite <- ?app_assoc; reflexivity.
Qed.

Lemma plot_array_not_list array step_size use_label use_title use_xlabel
    use_ylabel style_sheet use_grid width height use_linestyle use_dpi path
    show_plot st :
  isinstance_list array = false ->
  plot_array array step_size use_label use_title use_xlabel use_ylabel
    style_sheet use_grid width height use_linestyle use_dpi path show_plot st =
  (Raises (ValueError array_needs_list), st).
Proof. intros Hlist. rewrite plot_array_unfold. by destruct array. Qed.

(** ** plot_dict, stage by stage *)

Lemma check_entry_run entry st : check_entry entry st = (entry_outcome entry, st).
Proof.
  destruct entry as [label array]. unfold check_entry, entry_outcome, bind. simpl.
  destruct (isinstance_str label); simpl; [|done].
  by destruct (negb (isinstance_list array) || isinstance_ndarray array).
Qed.

Lemma check_linestyle_run x st : check_linestyle x st = (linestyle_outcome x, st).
Proof.
  unfold check_linestyle, linestyle_outcome, membership_outcome, bind, lift.
  by destruct (py_contains x linestyles) as [[]|e].
Qed.

Lemma plot_entries_run step_size use_linestyles rows st :
  for_each rows (plot_entry step_size use_linestyles) st =
  (snd (plotted step_size use_linestyles rows),
   add_calls st (map plot_of (fst (plotted step_size use_linestyles rows)))).
Proof.
  revert st. induction rows as [|[index [use_label array]] rest IH]; intros st; simpl.
  - by rewrite add_calls_nil.
  - unfold bind at 1. unfold plot_entry, bind, or_raise, lift.
    destruct (py_len array) as [n|]; simpl; [|by rewrite add_calls_nil].
    destruct (np_steps n step_size) as [steps|e]; simpl;
      [|by rewrite add_calls_nil].
    destruct (py_getitem use_linestyles index) as [linestyle|e]; simpl;
      [|by rewrite add_calls_nil].
    rewrite IH.
    destruct (plotted step_size use_linestyles rest) as [plots r]. simpl.
    by rewrite add_calls_app.
Qed.

Lemma plot_dict_unfold dict_arrays step_size use_title use_xlabel use_ylabel
    style_sheet use_grid width height use_linestyles use_dpi path show_plot st :
  plot_dict dict_arrays step_size use_title use_xlabel use_ylabel style_sheet
    use_grid width height use_linestyles use_dpi path show_plot st =
  match dict_arrays with
  | PyDict entries =>
      match first_raise entry_outcome entries with
      | Raises e => (Raises e, st)
      | Returns _ =>
          match style_outcome style_sheet (style_available st) with
          | Raises e => (Raises e, st)
          | Returns _ =>
              let st1 := use_style st style_sheet in
              match checked_linestyles use_linestyles with
              | Raises e => (Raises e, st1)
              | Returns _ =>
                  let '(plots, r) :=
                    plotted step_size
                            (resolved_linestyles entries use_linestyles)
                            (enumerate entries) in
                  match r with
                  | Raises e =>
                      (Raises e,
                       add_calls st1 (plt_subplot 1 2 1 :: map plot_of plots))
                  | Returns _ =>
                      (Returns tt,
                       add_calls st1
                         (plot_dict_calls plots use_title use_xlabel
                            use_ylabel use_grid width height use_dpi path
                            show_plot))
                  end
              end
          end
      end
  | _ => (Raises (ValueError array_needs_dictionary), st)
  end.
Proof.
  unfold plot_dict.
  destruct dict_arrays as [| | | | | | |entries|]; try reflexivity.
  unfold bind at 1. simpl. unfold bind at 1. simpl.
  unfold bind at 1. rewrite (for_each_checks _ _ _ check_entry_run).
  destruct (first_raise entry_outcome entries) as [[]|e]; [|done].
  unfold bind at 1. simpl. unfold bind at 1. unfold lift at 1.
  unfold style_outcome, membership_outcome.
  destruct (py_contains style_sheet (style_available st)) as [[]|e]; [|done..].
  unfold bind at 1. simpl.
  unfold bind at 1. unfold checked_linestyles, resolved_linestyles.
  destruct (is_none use_linestyles); simpl.
  - unfold bind at 1. simpl. unfold bind at 1. rewrite plot_entries_run.
    destruct (plotted _ _ _) as [plots [[]|e]]; simpl.
    + unfold plot_dict_calls, bind.
      destruct (is_none path), (is_true show_plot); simpl;
        rewrite ?add_calls_app; simpl; rewrite <- ?app_assoc; reflexivity.
    + by rewrite add_calls_app.
  - unfold bind at 1. unfold or_raise, lift.
    destruct (py_list use_linestyles) as [styles|]; simpl; [|done].
    unfold bind at 1. rewrite (for_each_checks _ _ _ check_linestyle_run).
    destruct (first_raise linestyle_outcome styles) as [[]|e]; [|done].
    simpl. unfold bind at 1. simpl. unfold bind at 1. rewrite plot_entries_run.
    destruct (plotted _ _ _) as [plots [[]|e]]; simpl.
    + unfold plot_dict_calls, bind.
      destruct (is_none path), (is_true show_plot); simpl;
        rewrite ?add_calls_app; simpl; rewrite <- ?app_assoc; reflexivity.
    + by rewrite add_calls_app.
Qed.

(** ** Arrays *)

Lemma divide_by_row_sums (counts : list (list Z)) :
  divide_by_column (astype_float counts) (sum_axis1 counts) =
  map normalized_row counts.
Proof.
  unfold divide_by_column, astype_float, sum_axis1.
  induction counts as [|row rest IH]; simpl; [done|].
  rewrite IH. f_equal. unfold normalized_row. by rewrite map_map.
Qed.

Lemma confusion_matrix_rectangular y_true y_pred :
  rectangular (confusion_matrix y_true y_pred).
Proof.
  unfold rectangular, confusion_matrix.
  set (labels := unique_labels y_true y_pred).
  set (samples := zip y_true y_pred).
  apply Forall_forall. intros row Hrow.
  apply list_elem_of_fmap in Hrow as (t & -> & _).
  rewrite length_map. destruct labels; simpl; [done|].
  by rewrite length_map.
Qed.

Lemma map_rectangular {A B} (f : list A -> list B) (rows : list (list A)) :
  (forall row, length (f row) = length row) ->
  rectangular rows -> rectangular (map f rows).
Proof.
  unfold rectangular. intros Hf Hrows.
  apply Forall_forall. intros row Hrow.
  apply list_elem_of_fmap in Hrow as (row0 & -> & Hrow0).
  rewrite Forall_forall in Hrows. rewrite Hf, (Hrows _ Hrow0).
  destruct rows; simpl; [done|]. by rewrite Hf.
Qed.

Lemma returned_matrix_rectangular normalize y_true y_pred :
  rectangular_array (returned_matrix normalize y_true y_pred).
Proof.
  unfold returned_matrix. destruct normalize; simpl.
  - rewrite divide_by_row_sums. apply map_rectangular.
    + intros row. unfold normalized_row. by rewrite length_map.
    + apply confusion_matrix_rectangular.
  - apply confusion_matrix_rectangular.
Qed.

Lemma shape_returned_matrix normalize y_true y_pred :
  shape (returned_matrix normalize y_true y_pred) =
  (length (unique_labels y_true y_pred), length (unique_labels y_true y_pred)).
Proof.
  unfold returned_matrix, confusion_matrix.
  rewrite divide_by_row_sums.
  destruct normalize; simpl; rewrite !length_map;
    destruct (unique_labels y_true y_pred) as [|t labels]; simpl; try done;
    unfold normalized_row; by rewrite !length_map.
Qed.

Lemma rectangular_lookup {A} (rows : list (list A)) i j :
  rectangular rows -> (i < length rows)%nat -> (j < length (hd [] rows))%nat ->
  exists row x, rows !! i = Some row /\ row !! j = Some x.
Proof.
  intros Hrect Hi Hj.
  destruct (lookup_lt_is_Some_2 rows i Hi) as [row Hrow].
  assert (Hlen : length row = length (hd [] rows)).
  { unfold rectangular in Hrect. rewrite Forall_forall in Hrect.
    apply Hrect. by eapply list_elem_of_lookup_2. }
  destruct (lookup_lt_is_Some_2 row j) as [x Hx]; [lia|].
  by exists row, x.
Qed.

Lemma cell_at_defined cm i j :
  rectangular_array cm ->
  (i < fst (shape cm))%nat -> (j < snd (shape cm))%nat ->
  is_Some (cell_at cm i j).
Proof.
  destruct cm as [rows|rows]; simpl; intros Hrect Hi Hj;
    destruct (rectangular_lookup rows i j Hrect Hi Hj) as (row & x & Hrow & Hx);
    rewrite Hrow; simpl; rewrite Hx; simpl; eauto.
Qed.

Lemma annotate_run cm fmt thresh st :
  rectangular_array cm ->
  for_each (seq 0 (fst (shape cm))) (fun i =>
    for_each (seq 0 (snd (shape cm))) (fun j =>
      annotate_cell cm fmt thresh i j)) st =
  (Returns tt, add_calls st (annotations cm fmt thresh)).
Proof.
  intros Hrect. unfold annotations. revert st.
  apply for_each_emits. intros i st Hi. revert st.
  apply for_each_emits. intros j st Hj.
  apply elem_of_seq in Hi, Hj.
  destruct (cell_at_defined cm i j Hrect) as [cell Hcell]; [lia..|].
  unfold annotate_cell, bind, or_raise, lift. by rewrite Hcell.
Qed.

(** ** plot_confusion_matrix, stage by stage *)

Lemma length_np_arange n : length (np_arange n) = n.
Proof. unfold np_arange. rewrite length_seqZ. lia. Qed.

Lemma ax_set_checked_run n labels title ylabel xlabel st :
  ax_set_checked (np_arange n) (np_arange n) labels labels title ylabel xlabel
    st =
  (if ticklabels_fit n labels then Returns tt
   else Raises (ValueError (ticklabels_mismatch n (ticklabels_length labels))),
   add_calls st
     [ax_set (np_arange n) (np_arange n) labels labels title ylabel xlabel]).
Proof.
  unfold ax_set_checked. rewrite bind_emit, length_np_arange. unfold bind.
  by destruct (ticklabels_fit n labels).
Qed.

Lemma plot_confusion_matrix_unfold y_true y_pred classes normalize title cmap
    image verbose magnify dpi st :
  plot_confusion_matrix y_true y_pred classes normalize title cmap image verbose
    magnify dpi st =
  if negb (length y_true =? length y_pred)%nat
  then (Raises (ValueError lengths_differ), st)
  else
    match py_list classes with
    | None => (Raises TypeError, st)
    | Some names =>
        if assertion_fails y_true names then (Raises AssertionError, st)
        else
          match py_truth title with
          | None => (Raises (ValueError truth_value_ambiguous), st)
          | Some has_title =>
              let cm := returned_matrix normalize y_true y_pred in
              let ticks := resolved_classes y_true names in
              let title' := resolved_title normalize has_title title in
              let nticks := length (unique_labels y_true y_pred) in
              if ticklabels_fit nticks ticks then
                let head := heatmap_calls cm ticks normalize title' cmap verbose in
                match np_max cm with
                | None => (Raises (ValueError zero_size_reduction), add_calls st head)
                | Some top =>
                    match py_truth image with
                    | None =>
                        (Raises (ValueError truth_value_ambiguous),
                         add_calls st
                           (head ++
                            annotations cm (if normalize then ".2f" else "d")
                                        (np_divide top (Fin 2)) ++
                            [fig_tight_layout;
                             fig_scale_size_inches magnify magnify]))
                    | Some save =>
                        (Returns cm,
                         add_calls st
                           (plot_confusion_matrix_calls cm ticks normalize title'
                              cmap image verbose magnify dpi top save))
                    end
                end
              else
                (Raises (ValueError (ticklabels_mismatch nticks
                                       (ticklabels_length ticks))),
                 add_calls st (axes_calls cm ticks normalize title' cmap verbose))
          end
    end.
Proof.
  unfold plot_confusion_matrix.
  unfold bind at 1.
  destruct (negb (length y_true =? length y_pred)%nat); simpl; [done|].
  unfold bind at 1. unfold or_raise at 1. unfold lift at 1.
  destruct (py_list classes) as [names|]; simpl; [|done].
  unfold bind at 1.
  match goal with |- context [match names with [] => ?a | _ :: _ => ?b end st] =>
    assert (Hclasses : match names with [] => a | _ :: _ => b end st =
      if assertion_fails y_true names then (Raises AssertionError, st)
      else (Returns (resolved_classes y_true names), st))
  end.
  { destruct names as [|name names]; [done|]. unfold assertion_fails, bind.
    by destruct (size _ =? _)%nat. }
  rewrite Hclasses. clear Hclasses.
  destruct (assertion_fails y_true names); [done|].
  unfold bind at 1. unfold truth at 1. unfold or_raise at 1. unfold lift at 1.
  destruct (py_truth title) as [has_title|]; [|done].
  cbn [from_option].
  fold (resolved_title normalize has_title title).
  set (ticks := resolved_classes y_true names).
  set (title' := resolved_title normalize has_title title).
  unfold bind at 1.
  match goal with |- context [(if normalize then ?a else ?b) st] =>
    replace ((if normalize then a else b) st)
      with (Returns (returned_matrix normalize y_true y_pred),
            add_calls st [py_print (if normalize
                                    then "Normalized confusion matrix"
                                    else "Confusion matrix, without normalization")])
      by (by destruct normalize)
  end.
  generalize (shape_returned_matrix normalize y_true y_pred).
  generalize (returned_matrix_rectangular normalize y_true y_pred).
  generalize (length (unique_labels y_true y_pred)).
  generalize (returned_matrix normalize y_true y_pred). intros cm n Hrect Hshape.
  cbv zeta.
  unfold bind at 1.
  set (banner := py_print (if normalize
                           then "Normalized confusion matrix"
                           else "Confusion matrix, without normalization")).
  assert (Hverbose :
    (if (0 <? verbose)%Z then emit (py_print_array cm) else pass)
      (add_calls st [banner]) =
    (Returns tt,
     add_calls st ([banner] ++
                   (if (0 <? verbose)%Z then [py_print_array cm] else [])))).
  { destruct (0 <? verbose)%Z; unfold emit, pass, ret;
      by rewrite ?add_calls_app, ?app_nil_r. }
  rewrite Hverbose. clear Hverbose.
  rewrite !bind_emit, !add_calls_app.
  unfold bind at 1. rewrite Hshape. cbn [fst snd].
  rewrite ax_set_checked_run, add_calls_app.
  unfold plot_confusion_matrix_calls, heatmap_calls, axes_calls.
  rewrite Hshape. cbn [fst snd]. fold banner.
  destruct (ticklabels_fit n ticks).
  2:{ by rewrite <- !app_assoc. }
  rewrite !bind_emit, !add_calls_app.
  unfold bind at 1. unfold or_raise at 1. unfold lift at 1.
  destruct (np_max cm) as [top|]; cbn [from_option].
  2:{ by rewrite <- !app_assoc. }
  assert (Hloops := annotate_run cm (if normalize then ".2f" else "d")
                      (np_divide top (Fin 2))).
  rewrite Hshape in Hloops. cbn [fst snd] in Hloops.
  rewrite (bind_run _ _ _ _ _ (Hloops _ Hrect)).
  rewrite !bind_emit, !add_calls_app.
  unfold bind at 1. unfold truth at 1. unfold or_raise at 1. unfold lift at 1.
  destruct (py_truth image) as [save|]; cbn [from_option].
  2:{ by rewrite <- !app_assoc. }
  unfold bind at 1.
  destruct save; unfold bind, emit, pass, ret;
    rewrite ?add_calls_app, <- ?app_assoc; reflexivity.
Qed.

(** ** The counts and their row sums *)

Lemma elem_of_insert_label x y labels :
  x ∈ insert_label y labels <-> x = y \/ x ∈ labels.
Proof.
  induction labels as [|z rest IH]; simpl.
  - rewrite list_elem_of_singleton, elem_of_nil. tauto.
  - destruct (Z.ltb_spec y z).
    + by rewrite elem_of_cons.
    + destruct (Z.eqb_spec y z) as [->|Hne].
      * rewrite elem_of_cons. tauto.
      * rewrite !elem_of_cons, IH. tauto.
Qed.

Lemma elem_of_unique_labels x y_true y_pred :
  x ∈ unique_labels y_true y_pred <-> x ∈ y_true \/ x ∈ y_pred.
Proof.
  unfold unique_labels. rewrite <- elem_of_app.
  induction (y_true ++ y_pred) as [|y rest IH]; simpl; [done|].
  rewrite elem_of_insert_label, elem_of_cons, IH. tauto.
Qed.

Lemma count_pairs_nonneg t p samples : 0 <= count_pairs t p samples.
Proof.
  induction samples as [|[t' p'] rest IH]; simpl; [done|].
  destruct ((t' =? t)%Z && (p' =? p)%Z); lia.
Qed.

Lemma count_pairs_pos t p samples :
  (t, p) ∈ samples -> 1 <= count_pairs t p samples.
Proof.
  induction samples as [|[t' p'] rest IH]; intros Hin.
  - by apply elem_of_nil in Hin.
  - simpl. apply elem_of_cons in Hin as [[= <- <-]|Hin].
    + rewrite !Z.eqb_refl. simpl. pose proof (count_pairs_nonneg t p rest). lia.
    + specialize (IH Hin). destruct ((t' =? t)%Z && (p' =? p)%Z); lia.
Qed.

Lemma zip_partner (y_true y_pred : list Z) t :
  length y_true = length y_pred -> t ∈ y_true ->
  exists p, p ∈ y_pred /\ (t, p) ∈ zip y_true y_pred.
Proof.
  revert y_pred. induction y_true as [|t' rest IH]; intros [|p' y_pred] Hlen Hin;
    try discriminate; [by apply elem_of_nil in Hin|].
  simpl. apply elem_of_cons in Hin as [->|Hin].
  - exists p'. split; apply list_elem_of_here.
  - destruct (IH y_pred) as (p & Hp & Hzip); [by injection Hlen | done |].
    exists p. split; by apply list_elem_of_further.
Qed.

Lemma row_sum_pos (row : list Z) x :
  Forall (fun c => 0 <= c) row -> x ∈ row -> 1 <= x -> 1 <= foldr Z.add 0 row.
Proof.
  induction 1 as [|c rest Hc Hrest IH]; intros Hin Hx.
  - by apply elem_of_nil in Hin.
  - simpl. apply elem_of_cons in Hin as [->|Hin].
    + assert (0 <= foldr Z.add 0 rest); [|lia].
      clear -Hrest. induction Hrest; simpl; lia.
    + specialize (IH Hin Hx). lia.
Qed.

Lemma confusion_row_sum_pos y_true y_pred row :
  length y_true = length y_pred ->
  (forall p, p ∈ y_pred -> p ∈ y_true) ->
  row ∈ confusion_matrix y_true y_pred ->
  1 <= foldr Z.add 0 row.
Proof.
  intros Hlen Hsub Hrow. unfold confusion_matrix in Hrow.
  apply list_elem_of_fmap in Hrow as (t & -> & Ht).
  apply elem_of_unique_labels in Ht.
  assert (Htrue : t ∈ y_true) by (destruct Ht; auto).
  destruct (zip_partner y_true y_pred t Hlen Htrue) as (p & Hp & Hzip).
  apply (row_sum_pos _ (count_pairs t p (zip y_true y_pred))).
  - apply Forall_forall. intros c Hc.
    apply list_elem_of_fmap in Hc as (p' & -> & _). apply count_pairs_nonneg.
  - apply list_elem_of_fmap. exists p. split; [done|].
    apply elem_of_unique_labels. by right.
  - by apply count_pairs_pos.
Qed.

Lemma foldl_np_add_quotients (s : Z) (row : list Z) (a : Q) :
  exists q,
    foldl np_add (Fin a) (map (fun c => Fin (inject_Z c / inject_Z s)) row) = Fin q /\
    (q == a + inject_Z (foldr Z.add 0%Z row) / inject_Z s)%Q.
Proof.
  revert a. induction row as [|c rest IH]; intros a; simpl.
  - exists a. split; [done|]. unfold Qdiv. ring.
  - destruct (IH (a + inject_Z c / inject_Z s)%Q) as (q & Hq & Heq).
    exists q. split; [done|]. rewrite Heq, inject_Z_plus. unfold Qdiv. ring.
Qed.

Lemma normalized_row_sums_to_one (row : list Z) :
  foldr Z.add 0 row <> 0 -> sums_to_one (normalized_row row).
Proof.
  intros Hs. unfold sums_to_one, np_sum, normalized_row.
  set (s := foldr Z.add 0 row) in *.
  assert (Hdiv : forall c,
    np_divide (Fin (inject_Z c)) (Fin (inject_Z s)) = Fin (inject_Z c / inject_Z s)).
  { intros c. unfold np_divide, Qis_zero. simpl.
    by destruct (Z.eqb_spec s 0). }
  rewrite (map_ext _ _ Hdiv).
  destruct (foldl_np_add_quotients s row 0) as (q & -> & Heq).
  rewrite Heq. fold s. rewrite Qplus_0_l. apply Qmult_inv_r.
  intros H. apply Hs. unfold Qeq in H. simpl in H. lia.
Qed.

(** ** Tick labels and labels *)

Lemma insert_label_sorted x labels :
  StronglySorted Z.lt labels -> StronglySorted Z.lt (insert_label x labels).
Proof.
  induction 1 as [|y rest Hrest IH Hy]; simpl.
  - repeat constructor.
  - destruct (Z.ltb_spec x y) as [Hlt|Hge].
    + constructor; [by constructor|]. constructor; [done|].
      eapply Forall_impl; [exact Hy|]. intros z Hz. simpl in Hz. lia.
    + destruct (Z.eqb_spec x y) as [->|Hne]; [by constructor|].
      constructor; [done|]. apply Forall_forall. intros z Hz.
      apply elem_of_insert_label in Hz as [->|Hz]; [lia|].
      rewrite Forall_forall in Hy. by apply Hy.
Qed.

Lemma unique_labels_sorted y_true y_pred :
  StronglySorted Z.lt (unique_labels y_true y_pred).
Proof.
  unfold unique_labels. induction (y_true ++ y_pred) as [|y rest IH]; simpl.
  - constructor.
  - by apply insert_label_sorted.
Qed.

Lemma unique_labels_NoDup y_true y_pred : NoDup (unique_labels y_true y_pred).
Proof.
  induction (unique_labels_sorted y_true y_pred) as [|y rest Hrest IH Hy].
  - constructor.
  - constructor; [|done]. intros Hin. rewrite Forall_forall in Hy.
    specialize (Hy _ Hin). lia.
Qed.

Lemma size_unique_labels (y_true y_pred : list Z) :
  size (list_to_set (unique_labels y_true y_pred) : gset Z) =
  length (unique_labels y_true y_pred).
Proof. apply size_list_to_set, unique_labels_NoDup. Qed.

(** The labels of [y_true] are all the labels exactly when there are as many
    of them as rows. *)
Lemma labels_covered (y_true y_pred : list Z) :
  size (list_to_set y_true : gset Z) = length (unique_labels y_true y_pred) <->
  forall p, p ∈ y_pred -> p ∈ y_true.
Proof.
  rewrite <- size_unique_labels.
  assert (Hsub : (list_to_set y_true : gset Z) ⊆
                 list_to_set (unique_labels y_true y_pred)).
  { intros t Ht. apply elem_of_list_to_set in Ht. apply elem_of_list_to_set.
    apply elem_of_unique_labels. by left. }
  split.
  - intros Hsize p Hp.
    assert (Heq : (list_to_set y_true : gset Z) =
                  list_to_set (unique_labels y_true y_pred)).
    { apply set_subseteq_size_eq; [done|lia]. }
    apply (elem_of_list_to_set (C := gset Z)). rewrite Heq.
    apply elem_of_list_to_set, elem_of_unique_labels. by right.
  - intros Hcover. f_equal. apply set_eq. intros t.
    rewrite !elem_of_list_to_set, elem_of_unique_labels. naive_solver.
Qed.

Lemma ticklabels_length_resolved y_true names :
  assertion_fails y_true names = false ->
  ticklabels_length (resolved_classes y_true names) =
  size (list_to_set y_true : gset Z).
Proof.
  destruct names as [|name rest]; [done|]. unfold assertion_fails. simpl.
  destruct (Nat.eqb_spec (size (list_to_set y_true : gset Z)) (S (length rest)));
    [done|discriminate].
Qed.

Lemma empty_labels (y_true : list Z) :
  size (list_to_set y_true : gset Z) = 0%nat -> y_true = [].
Proof.
  intros Hsize. apply size_empty_inv in Hsize.
  destruct y_true as [|t rest]; [done|].
  exfalso. assert (Ht : t ∈ (list_to_set (t :: rest) : gset Z)).
  { apply elem_of_list_to_set, list_elem_of_here. }
  rewrite Hsize in Ht. by apply elem_of_empty in Ht.
Qed.

(** The tick labels fit exactly when every label of [y_pred] occurs in
    [y_true]. *)
Lemma ticklabels_fit_covered (y_true y_pred : list Z) names :
  length y_true = length y_pred ->
  assertion_fails y_true names = false ->
  ticklabels_fit (length (unique_labels y_true y_pred))
                 (resolved_classes y_true names) = true <->
  forall p, p ∈ y_pred -> p ∈ y_true.
Proof.
  intros Hlen Hassert. unfold ticklabels_fit.
  rewrite (ticklabels_length_resolved _ _ Hassert).
  rewrite orb_true_iff, !Nat.eqb_eq, labels_covered. split; [|auto].
  intros [Hempty|Hcover]; [|done].
  apply empty_labels in Hempty as ->. destruct y_pred; [|done].
  intros p Hp. by apply elem_of_nil in Hp.
Qed.

(** ** What the checks can raise *)

Lemma entry_outcome_raises entry e :
  entry_outcome entry = Raises e ->
  e = ValueError dict_needs_string_keys \/ e = ValueError dict_needs_lists_values.
Proof.
  unfold entry_outcome. destruct (negb _); [intros [= <-]; by left|].
  destruct (_ || _); [intros [= <-]; by right | done].
Qed.

Lemma linestyle_outcome_str s :
  linestyle_outcome (PyStr s) =
  if py_in (PyStr s) linestyles then Returns tt
  else Raises (ValueError (linestyle_not_in_styles (PyStr s) linestyles)).
Proof.
  unfold linestyle_outcome, membership_outcome, py_in.
  rewrite py_contains_str. by destruct (existsb _ _).
Qed.

Lemma entries_raise_value_error entries e :
  first_raise entry_outcome entries = Raises e ->
  e = ValueError dict_needs_string_keys \/ e = ValueError dict_needs_lists_values.
Proof.
  intros H. apply first_raise_raises in H as (entry & _ & H).
  by apply entry_outcome_raises in H.
Qed.

Lemma ndarray_entry_raises label items :
  exists e, entry_outcome (label, PyNdarray items) = Raises e.
Proof.
  unfold entry_outcome. simpl. destruct (negb (isinstance_str label)); eauto.
Qed.

(** The plotting loop of [plot_dict] never ends with a validation error. *)
Lemma plotted_error step_size use_linestyles rows e :
  snd (plotted step_size use_linestyles rows) = Raises e ->
  validation_error e = false.
Proof.
  induction rows as [|[index [use_label array]] rest IH]; simpl; [done|].
  destruct (py_len array) as [n|]; [|by intros [= <-]].
  destruct (np_steps n step_size) as [steps|e'] eqn:Hsteps.
  2:{ intros [= <-]. by apply np_steps_raises in Hsteps as ->. }
  destruct (py_getitem use_linestyles index) as [linestyle|e'] eqn:Hget.
  - destruct (plotted step_size use_linestyles rest) as [plots r]. exact IH.
  - simpl. intros [= <-]. unfold py_getitem, from_option in Hget.
    destruct use_linestyles; repeat case_match; by simplify_eq.
Qed.

(** ** Reading traces *)

Lemma flat_map_flat_map_nil {A B C} (g : B -> list C) (f : A -> list B) xs :
  (forall x, flat_map g (f x) = []) -> flat_map g (flat_map f xs) = [].
Proof.
  intros Hf. induction xs as [|x rest IH]; simpl; [done|].
  by rewrite flat_map_app, Hf, IH.
Qed.

Lemma annotations_no_savefig cm fmt thresh :
  savefig_calls (annotations cm fmt thresh) = [].
Proof.
  unfold savefig_calls, annotations.
  apply flat_map_flat_map_nil. intros i.
  apply flat_map_flat_map_nil. intros j.
  by destruct (cell_at cm i j).
Qed.


Lemma savefig_calls_app cs1 cs2 :
  savefig_calls (cs1 ++ cs2) = savefig_calls cs1 ++ savefig_calls cs2.
Proof. apply flat_map_app. Qed.

Lemma plot_calls_app cs1 cs2 :
  plot_calls (cs1 ++ cs2) = plot_calls cs1 ++ plot_calls cs2.
Proof. apply flat_map_app. Qed.


Lemma plot_calls_plots plots : plot_calls (map plot_of plots) = plots.
Proof.
  induction plots as [|[[[steps array] linestyle] label] rest IH]; simpl; [done|].
  by rewrite IH.
Qed.

Lemma savefig_calls_plots plots : savefig_calls (map plot_of plots) = [].
Proof.
  induction plots as [|[[[steps array] linestyle] label] rest IH]; by simpl.
Qed.

(** The line plots of [plot_array] and of [plot_dict]. *)
Lemma plot_calls_plot_array steps array use_label use_title use_xlabel
    use_ylabel use_grid width height use_linestyle use_dpi path show_plot :
  plot_calls (plot_array_calls steps array use_label use_title use_xlabel
                use_ylabel use_grid width height use_linestyle use_dpi path
                show_plot) =
  [(steps, array, use_linestyle, use_label)].
Proof.
  unfold plot_array_calls. simpl.
  by destruct (is_none use_label), (is_none path), (is_true show_plot).
Qed.

Lemma savefig_calls_plot_array steps array use_label use_title use_xlabel
    use_ylabel use_grid width height use_linestyle use_dpi path show_plot :
  savefig_calls (plot_array_calls steps array use_label use_title use_xlabel
                   use_ylabel use_grid width height use_linestyle use_dpi path
                   show_plot) =
  if is_none path then [] else [(path, use_dpi)].
Proof.
  unfold plot_array_calls. simpl.
  by destruct (is_none use_label), (is_none path), (is_true show_plot).
Qed.

Lemma plot_calls_plot_dict plots use_title use_xlabel use_ylabel use_grid
    width height use_dpi path show_plot :
  plot_calls (plot_dict_calls plots use_title use_xlabel use_ylabel use_grid
                width height use_dpi path show_plot) = plots.
Proof.
  unfold plot_dict_calls. rewrite !plot_calls_app, plot_calls_plots. simpl.
  destruct (is_none path), (is_true show_plot); simpl; by rewrite app_nil_r.
Qed.

Lemma savefig_calls_plot_dict plots use_title use_xlabel use_ylabel use_grid
    width height use_dpi path show_plot :
  savefig_calls (plot_dict_calls plots use_title use_xlabel use_ylabel use_grid
                   width height use_dpi path show_plot) =
  if is_none path then [] else [(path, use_dpi)].
Proof.
  unfold plot_dict_calls. rewrite !savefig_calls_app, savefig_calls_plots. simpl.
  by destruct (is_none path), (is_true show_plot).
Qed.

(** What the plotting loop of [plot_dict] has done when it ends without an
    error: one line plot per entry, the one of the entry at position [i]
    with the element of [use_linestyles] at index [start + i]. *)
Lemma plotted_returns step_size use_linestyles entries start plots :
  plotted step_size use_linestyles (enumerate_from start entries) =
    (plots, Returns tt) ->
  length plots = length entries /\
  forall i use_label array,
    entries !! i = Some (use_label, array) ->
    exists n steps linestyle,
      py_len array = Some n /\
      np_steps n step_size = Returns steps /\
      py_getitem use_linestyles (start + i) = Returns linestyle /\
      plots !! i = Some (steps, array, linestyle, use_label).
Proof.
  revert start plots.
  induction entries as [|[label0 array0] rest IH]; intros start plots; simpl.
  - intros [= <-]. split; [done|]. intros i use_label array Hi. done.
  - destruct (py_len array0) as [n0|] eqn:Hlen; [|done].
    destruct (np_steps n0 step_size) as [steps0|] eqn:Hsteps; [|done].
    destruct (py_getitem use_linestyles start) as [linestyle0|] eqn:Hget; [|done].
    destruct (plotted step_size use_linestyles (enumerate_from (S start) rest))
      as [plots' r] eqn:Hrest.
    intros [= <- ->]. destruct (IH _ _ Hrest) as [Hlength Hlookup].
    split; [simpl; by rewrite Hlength|].
    intros [|i] use_label array Hi; simpl in Hi.
    + injection Hi as <- <-. exists n0, steps0, linestyle0.
      by rewrite Nat.add_0_r.
    + destruct (Hlookup i use_label array Hi) as (n & steps & linestyle & H).
      exists n, steps, linestyle.
      by replace (start + S i)%nat with (S start + i)%nat by lia.
Qed.

(** ** The plotting loop over a list of line styles *)

Lemma valid_entry_passes entry : valid_entry entry -> entry_outcome entry = Returns tt.
Proof.
  destruct entry as [label array]. intros [Hlabel Harray]. simpl in *.
  unfold entry_outcome. simpl. rewrite Hlabel. simpl.
  by destruct array.
Qed.


Lemma valid_entries_pass entries :
  Forall valid_entry entries -> first_raise entry_outcome entries = Returns tt.
Proof.
  intros H. apply first_raise_passes. eapply Forall_impl; [exact H|].
  apply valid_entry_passes.
Qed.

Lemma supported_linestyle_in style :
  supported_linestyle style -> py_in style linestyles = true.
Proof. intros (s & -> & Hs). by apply py_in_str. Qed.

Lemma supported_style_in style_sheet available :
  supported_style style_sheet available -> py_in style_sheet available = true.
Proof. intros (s & -> & Hs). by apply py_in_str. Qed.



(** ** Sequences as line styles *)

Lemma py_sequence_getitem x styles i :
  py_sequence x = Some styles ->
  py_getitem x i = from_option IndexError (styles !! i).
Proof. destruct x; simpl; try done; by intros [= <-]. Qed.

Lemma py_sequence_checked x styles :
  py_sequence x = Some styles ->
  checked_linestyles x = first_raise linestyle_outcome styles /\
  is_none x = false.
Proof. destruct x; simpl; try done; by intros [= <-]. Qed.


(** * The claims *)

(** C1: label sequences of different lengths make [plot_confusion_matrix]
    raise the ValueError of its length check; no matrix is computed and no
    library call is made, so the state is the one before the call. *)
Theorem plot_confusion_matrix_rejects_length_mismatch
    (y_true y_pred : list Z) classes normalize title cmap image verbose magnify
    dpi st :
  length y_true <> length y_pred ->
  plot_confusion_matrix y_true y_pred classes normalize title cmap image verbose
    magnify dpi st = (Raises (ValueError lengths_differ), st).
Proof.
  intros Hlen. rewrite plot_confusion_matrix_unfold.
  by destruct (Nat.eqb_spec (length y_true) (length y_pred)).
Qed.

Lemma plot_confusion_matrix_rejects_length_mismatch_witness :
  length [0; 1; 1] <> length [0; 1] /\
  plot_confusion_matrix [0; 1; 1] [0; 1] default_classes false PyNone
    (PyOther "Blues") PyNone 0 (12 # 10) (PyInt 50) example_state =
  (Raises (ValueError lengths_differ), example_state).
Proof.
  split; [discriminate|].
  apply plot_confusion_matrix_rejects_length_mismatch. discriminate.
Defined.

(** C2: for y_true = [0,1,1,0] and y_pred = [0,1,0,0] without
    normalization the call returns the count matrix [[2,0],[1,1]]: row i is
    the true class i, column j the predicted class j.  This holds for the
    default [classes] and for any two names, and for every title and image
    that have a truth value. *)
Theorem plot_confusion_matrix_example classes names title cmap image verbose
    magnify dpi st :
  py_list classes = Some names ->
  names = [] \/ length names = 2%nat ->
  is_Some (py_truth title) ->
  is_Some (py_truth image) ->
  fst (plot_confusion_matrix [0; 1; 1; 0] [0; 1; 0; 0] classes false title cmap
         image verbose magnify dpi st) =
  Returns (IntArray [[2; 0]; [1; 1]]).
Proof.
  intros Hclasses Hnames [has_title Htitle] [save Himage].
  assert (Hassert : assertion_fails [0; 1; 1; 0] names = false).
  { destruct Hnames as [->|Hlen]; [done|].
    destruct names as [|name rest]; [done|].
    unfold assertion_fails. rewrite Hlen. by vm_compute. }
  assert (Hfit : ticklabels_fit (length (unique_labels [0; 1; 1; 0] [0; 1; 0; 0]))
                                (resolved_classes [0; 1; 1; 0] names) = true).
  { apply ticklabels_fit_covered; [done..|]. apply Forall_forall.
    repeat constructor. }
  rewrite plot_confusion_matrix_unfold, Hclasses, Hassert, Htitle.
  cbv zeta. rewrite Hfit, Himage. reflexivity.
Qed.

Lemma plot_confusion_matrix_example_witness :
  fst (plot_confusion_matrix [0; 1; 1; 0] [0; 1; 0; 0] default_classes false PyNone
         (PyOther "Blues") PyNone 0 (12 # 10) (PyInt 50) example_state) =
  Returns (IntArray [[2; 0]; [1; 1]]).
Proof.
  apply (plot_confusion_matrix_example default_classes []);
    [reflexivity | by left | by exists false | by exists false].
Defined.

(** C3: every call with normalize=True that returns hands back the count
    matrix with each row divided by its row sum, and every row of it sums
    to 1.  A row of counts sums to 0 only for a label that occurs in y_pred
    and not in y_true, and then there are more ticks than tick labels and
    the call raises in [ax.set]. *)
Theorem normalized_rows_sum_to_one (y_true y_pred : list Z) classes title cmap
    image verbose magnify dpi st cm st' :
  plot_confusion_matrix y_true y_pred classes true title cmap image verbose
    magnify dpi st = (Returns cm, st') ->
  cm = FloatArray (map normalized_row (confusion_matrix y_true y_pred)) /\
  Forall sums_to_one (float_rows cm).
Proof.
  rewrite plot_confusion_matrix_unfold.
  destruct (Nat.eqb_spec (length y_true) (length y_pred)) as [Hlen|]; [|done].
  simpl. destruct (py_list classes) as [names|]; [|done].
  destruct (assertion_fails y_true names) eqn:Hassert; [done|].
  destruct (py_truth title) as [has_title|]; [|done].
  destruct (ticklabels_fit _ _) eqn:Hfit; [|done].
  destruct (np_max _) as [top|]; [|done].
  destruct (py_truth image) as [save|]; [|done].
  intros [= <- _]. rewrite divide_by_row_sums. split; [done|].
  pose proof (proj1 (ticklabels_fit_covered _ _ _ Hlen Hassert) Hfit) as Hcover.
  simpl. apply Forall_forall. intros row Hrow.
  apply list_elem_of_fmap in Hrow as (counts & -> & Hcounts).
  apply normalized_row_sums_to_one.
  pose proof (confusion_row_sum_pos _ _ _ Hlen Hcover Hcounts). lia.
Qed.

Lemma normalized_rows_sum_to_one_witness :
  exists cm st',
    plot_confusion_matrix [0; 1; 1; 0] [0; 1; 0; 0] default_classes true PyNone
      (PyOther "Blues") PyNone 0 (12 # 10) (PyInt 50) example_state =
    (Returns cm, st') /\
    cm = FloatArray (map normalized_row
                       (confusion_matrix [0; 1; 1; 0] [0; 1; 0; 0])) /\
    Forall sums_to_one (float_rows cm).
Proof.
  exists (returned_matrix true [0; 1; 1; 0] [0; 1; 0; 0]),
    (snd (plot_confusion_matrix [0; 1; 1; 0] [0; 1; 0; 0] default_classes true
            PyNone (PyOther "Blues") PyNone 0 (12 # 10)%Q (PyInt 50)
            example_state)).
  split; [reflexivity|].
  exact (normalized_rows_sum_to_one [0; 1; 1; 0] [0; 1; 0; 0] default_classes
           PyNone (PyOther "Blues") PyNone 0 (12 # 10)%Q (PyInt 50)
           example_state _ _ eq_refl).
Defined.

(** C4: an input of [plot_array] that is neither a list nor an array is
    rejected with the ValueError of the format check, and nothing is
    plotted: the state is the one before the call. *)
Theorem plot_array_rejects_non_collection array step_size use_label use_title
    use_xlabel use_ylabel style_sheet use_grid width height use_linestyle
    use_dpi path show_plot st :
  isinstance_list array = false ->
  isinstance_ndarray array = false ->
  plot_array array step_size use_label use_title use_xlabel use_ylabel
    style_sheet use_grid width height use_linestyle use_dpi path show_plot st =
  (Raises (ValueError array_needs_list), st).
Proof. intros Hlist _. by apply plot_array_not_list. Qed.

Lemma plot_array_rejects_non_collection_witness :
  plot_array (PyInt 7) 1 PyNone PyNone PyNone PyNone (PyStr "ggplot")
    (PyBool true) 3 1 (PyStr "-") (PyInt 20) PyNone (PyBool true)
    example_state =
  (Raises (ValueError array_needs_list), example_state).
Proof. apply plot_array_rejects_non_collection; reflexivity. Defined.

(** C5: a style sheet that is not in [plt.style.available] makes
    [plot_array] and [plot_dict] raise a ValueError, and so does a line
    style that is not one of '-', '--', '-.', ':' (for [plot_dict]: an entry
    of [use_linestyles]).  Membership is what Python's [in] finds: an array
    holding one supported name is in the list, and an array of several
    names is not, the test on it raising numpy's own ValueError. *)
Theorem unsupported_style_rejected array dict_arrays step_size use_label
    use_title use_xlabel use_ylabel style_sheet use_grid width height
    use_linestyle use_linestyles use_dpi path show_plot st :
  (py_in style_sheet (style_available st) = false ->
   (exists msg,
      fst (plot_array array step_size use_label use_title use_xlabel use_ylabel
             style_sheet use_grid width height use_linestyle use_dpi path
             show_plot st) = Raises (ValueError msg)) /\
   (exists msg,
      fst (plot_dict dict_arrays step_size use_title use_xlabel use_ylabel
             style_sheet use_grid width height use_linestyles use_dpi path
             show_plot st) = Raises (ValueError msg))) /\
  (py_in use_linestyle linestyles = false ->
   (exists msg,
      fst (plot_array array step_size use_label use_title use_xlabel use_ylabel
             style_sheet use_grid width height use_linestyle use_dpi path
             show_plot st) = Raises (ValueError msg)) /\
   (forall entries,
      py_list use_linestyles = Some entries -> use_linestyle ∈ entries ->
      exists msg,
        fst (plot_dict dict_arrays step_size use_title use_xlabel use_ylabel
               style_sheet use_grid width height use_linestyles use_dpi path
               show_plot st) = Raises (ValueError msg))).
Proof.
  assert (Hmember : forall x names msg e,
    membership_outcome x names msg = Raises e -> exists msg', e = ValueError msg').
  { intros x names msg e H. apply membership_raises in H as [_ [->| ->]]; eauto. }
  split.
  - intros Hstyle.
    destruct (membership_fails style_sheet (style_available st)
                (style_not_supported style_sheet (style_available st)) Hstyle)
      as (e & He & _).
    fold (style_outcome style_sheet (style_available st)) in He.
    pose proof (Hmember _ _ _ _ He) as [msg ->]. split.
    + rewrite plot_array_unfold, He. destruct array; simpl; eauto.
    + rewrite plot_dict_unfold.
      destruct dict_arrays; simpl; eauto.
      destruct (first_raise entry_outcome entries) as [[]|e] eqn:Hentries.
      * rewrite He. simpl. eauto.
      * apply entries_raise_value_error in Hentries as [-> | ->]; simpl; eauto.
  - intros Hline.
    destruct (membership_fails use_linestyle linestyles
                (linestyle_not_in_styles use_linestyle linestyles) Hline)
      as (e & He & _).
    fold (linestyle_outcome use_linestyle) in He.
    pose proof (Hmember _ _ _ _ He) as [msg ->]. split.
    + rewrite plot_array_unfold. destruct array; simpl; eauto.
      destruct (style_outcome style_sheet (style_available st)) as [[]|e] eqn:Hs.
      * rewrite He. simpl. eauto.
      * apply Hmember in Hs as [msg' ->]. simpl. eauto.
    + intros styles Hstyles Hin. rewrite plot_dict_unfold.
      destruct dict_arrays; simpl; eauto.
      destruct (first_raise entry_outcome entries) as [[]|e] eqn:Hentries.
      2:{ apply entries_raise_value_error in Hentries as [-> | ->]; simpl; eauto. }
      destruct (style_outcome style_sheet (style_available st)) as [[]|e] eqn:Hs.
      2:{ apply Hmember in Hs as [msg' ->]. simpl. eauto. }
      destruct (first_raise_fails linestyle_outcome styles _ _ Hin He)
        as (y & e' & _ & Hy & Hfirst).
      apply Hmember in Hy as [msg' ->].
      unfold checked_linestyles. rewrite Hstyles, Hfirst.
      destruct (is_none use_linestyles) eqn:Hnone; simpl; eauto.
      destruct use_linestyles; discriminate.
Qed.

Lemma unsupported_style_rejected_witness :
  (exists msg,
     fst (plot_array (PyList [PyInt 1; PyInt 2]) 1 PyNone PyNone PyNone PyNone
            (PyStr "neon") (PyBool true) 3 1 (PyStr "dotted") (PyInt 20) PyNone
            (PyBool true) example_state) = Raises (ValueError msg)) /\
  (exists msg,
     fst (plot_dict (PyDict [(PyStr "loss", PyList [PyInt 1; PyInt 2])]) 1
            PyNone PyNone PyNone (PyStr "ggplot") (PyBool true) 3 1
            (PyList [PyStr "dotted"]) (PyInt 20) PyNone (PyBool true)
            example_state) = Raises (ValueError msg)).
Proof.
  split.
  - destruct (unsupported_style_rejected (PyList [PyInt 1; PyInt 2]) PyNone 1
                PyNone PyNone PyNone PyNone (PyStr "neon") (PyBool true) 3 1
                (PyStr "dotted") PyNone (PyInt 20) PyNone (PyBool true)
                example_state) as [Hstyle _].
    exact (proj1 (Hstyle eq_refl)).
  - destruct (unsupported_style_rejected PyNone
                (PyDict [(PyStr "loss", PyList [PyInt 1; PyInt 2])]) 1 PyNone
                PyNone PyNone PyNone (PyStr "ggplot") (PyBool true) 3 1
                (PyStr "dotted") (PyList [PyStr "dotted"]) (PyInt 20) PyNone
                (PyBool true) example_state) as [_ Hline].
    exact (proj2 (Hline eq_refl) _ eq_refl (list_elem_of_here _ _)).
Defined.

(** C6, as stated: a rejected call leaves the state of the plotting library,
    the active style sheet included, as it was.  It fails for a supported
    style sheet with an unsupported line style: [plt.style.use] has run
    when the line style is checked. *)
Lemma rejected_call_changes_active_style :
  ~ (forall array step_size use_label use_title use_xlabel use_ylabel
            style_sheet use_grid width height use_linestyle use_dpi path
            show_plot st e st',
       plot_array array step_size use_label use_title use_xlabel use_ylabel
         style_sheet use_grid width height use_linestyle use_dpi path show_plot
         st = (Raises e, st') ->
       validation_error e = true ->
       st' = st).
Proof.
  intros H.
  specialize (H (PyList [PyInt 1; PyInt 2]) 1 PyNone PyNone PyNone PyNone
                (PyStr "ggplot") (PyBool true) 3%Q 1%Q (PyStr "dotted")
                (PyInt 20) PyNone (PyBool true) example_state _ _ eq_refl
                eq_refl).
  discriminate H.
Qed.

(** C6, amended: a call rejected with a validation error makes no library
    call at all (no figure, no file), and the state is the one before the
    call, except that [plot_array] and [plot_dict] have already made the
    supported [style_sheet] the active style when they reject a line
    style. *)
Theorem rejected_call_renders_nothing :
  (forall array step_size use_label use_title use_xlabel use_ylabel style_sheet
          use_grid width height use_linestyle use_dpi path show_plot st e st',
     plot_array array step_size use_label use_title use_xlabel use_ylabel
       style_sheet use_grid width height use_linestyle use_dpi path show_plot
       st = (Raises e, st') ->
     validation_error e = true ->
     calls st' = calls st /\
     (st' = st \/
      st' = use_style st style_sheet /\
      py_in style_sheet (style_available st) = true /\
      e = ValueError (linestyle_not_in_styles use_linestyle linestyles))) /\
  (forall dict_arrays step_size use_title use_xlabel use_ylabel style_sheet
          use_grid width height use_linestyles use_dpi path show_plot st e st',
     plot_dict dict_arrays step_size use_title use_xlabel use_ylabel
       style_sheet use_grid width height use_linestyles use_dpi path show_plot
       st = (Raises e, st') ->
     validation_error e = true ->
     calls st' = calls st /\
     (st' = st \/
      st' = use_style st style_sheet /\
      py_in style_sheet (style_available st) = true /\
      exists use_linestyle,
        e = ValueError (linestyle_not_in_styles use_linestyle linestyles))) /\
  (forall (y_true y_pred : list Z) classes normalize title cmap image verbose
          magnify dpi st e st',
     plot_confusion_matrix y_true y_pred classes normalize title cmap image
       verbose magnify dpi st = (Raises e, st') ->
     validation_error e = true ->
     st' = st).
Proof.
  split; [|split].
  - intros array step_size use_label use_title use_xlabel use_ylabel style_sheet
      use_grid width height use_linestyle use_dpi path show_plot st e st'.
    rewrite plot_array_unfold.
    destruct array;
      try (intros [= <- <-] _; split; [done|]; by left).
    destruct (style_outcome style_sheet (style_available st)) as [[]|e0] eqn:Hstyle.
    2:{ intros [= <- <-] _. split; [done|]. by left. }
    apply membership_returns in Hstyle. cbv zeta.
    destruct (linestyle_outcome use_linestyle) as [[]|e0] eqn:Hline.
    + destruct (np_steps _ _) as [steps|e0] eqn:Hsteps; [done|].
      intros [= <- <-] Hvalid. by apply np_steps_raises in Hsteps as ->.
    + intros [= <- <-] Hvalid. split; [done|]. right.
      split; [done|]. split; [done|].
      by apply (membership_validation_error _ _ _ _ Hline).
  - intros dict_arrays step_size use_title use_xlabel use_ylabel style_sheet
      use_grid width height use_linestyles use_dpi path show_plot st e st'.
    rewrite plot_dict_unfold.
    destruct dict_arrays;
      try (intros [= <- <-] _; split; [done|]; by left).
    destruct (first_raise entry_outcome entries) as [[]|e0].
    2:{ intros [= <- <-] _. split; [done|]. by left. }
    destruct (style_outcome style_sheet (style_available st)) as [[]|e0] eqn:Hstyle.
    2:{ intros [= <- <-] _. split; [done|]. by left. }
    apply membership_returns in Hstyle.
    simpl. destruct (checked_linestyles use_linestyles) as [[]|e0] eqn:Hchecked.
    + destruct (plotted _ _ _) as [plots [[]|e0]] eqn:Hplotted; [done|].
      intros [= <- <-] Hvalid.
      assert (Hnot := plotted_error step_size
                        (resolved_linestyles entries use_linestyles)
                        (enumerate entries) e0).
      rewrite Hplotted in Hnot. rewrite Hnot in Hvalid by done. discriminate.
    + intros [= <- <-] Hvalid. split; [done|]. right.
      split; [done|]. split; [done|].
      unfold checked_linestyles in Hchecked.
      destruct (is_none use_linestyles); [done|].
      destruct (py_list use_linestyles) as [styles|].
      * apply first_raise_raises in Hchecked as (x & _ & Hx).
        exists x. by apply (membership_validation_error _ _ _ _ Hx).
      * injection Hchecked as <-. discriminate.
  - intros y_true y_pred classes normalize title cmap image verbose magnify dpi
      st e st'.
    rewrite plot_confusion_matrix_unfold.
    destruct (negb _); [by intros [= <- <-]|].
    destruct (py_list classes) as [names|]; [|by intros [= <- <-]].
    destruct (assertion_fails y_true names); [by intros [= <- <-]|].
    destruct (py_truth title) as [has_title|]; [|by intros [= <- <-]].
    simpl. destruct (ticklabels_fit _ _); [|by intros [= <- <-]].
    destruct (np_max _) as [top|]; [|by intros [= <- <-]].
    destruct (py_truth image) as [save|]; [done|by intros [= <- <-]].
Qed.

Lemma rejected_call_renders_nothing_witness :
  calls (snd (plot_array (PyList [PyInt 1; PyInt 2]) 1 PyNone PyNone PyNone
                PyNone (PyStr "ggplot") (PyBool true) 3 1 (PyStr "dotted")
                (PyInt 20) PyNone (PyBool true) example_state)) =
  calls example_state /\
  calls (snd (plot_dict (PyDict [(PyInt 1, PyList [])]) 1 PyNone PyNone PyNone
                (PyStr "ggplot") (PyBool true) 3 1 PyNone (PyInt 20) PyNone
                (PyBool true) example_state)) =
  calls example_state /\
  snd (plot_confusion_matrix [0; 1; 1] [0; 1] default_classes false PyNone
         (PyOther "Blues") PyNone 0 (12 # 10) (PyInt 50) example_state) =
  example_state.
Proof.
  destruct rejected_call_renders_nothing as (Harray & Hdict & Hmatrix).
  split; [|split].
  - exact (proj1 (Harray (PyList [PyInt 1; PyInt 2]) 1 PyNone PyNone PyNone
                    PyNone (PyStr "ggplot") (PyBool true) 3%Q 1%Q
                    (PyStr "dotted") (PyInt 20) PyNone (PyBool true)
                    example_state _ _ eq_refl eq_refl)).
  - exact (proj1 (Hdict (PyDict [(PyInt 1, PyList [])]) 1 PyNone PyNone PyNone
                    (PyStr "ggplot") (PyBool true) 3%Q 1%Q PyNone (PyInt 20)
                    PyNone (PyBool true) example_state _ _ eq_refl eq_refl)).
  - exact (Hmatrix [0; 1; 1] [0; 1] default_classes false PyNone (PyOther "Blues")
             PyNone 0 (12 # 10)%Q (PyInt 50) example_state _ _ eq_refl eq_refl).
Defined.

(** C7: an accepted call forwards the caller's options unchanged.
    [plot_array] makes one line-plot call, with [use_linestyle] and
    [use_label]; [plot_dict] makes one per entry and in the order of the
    entries: the one for the entry at position [index] has the values and
    the key of that entry as y values and label, and as line style '-' when
    [use_linestyles] is None and [use_linestyles[index]] otherwise; the x
    values are the int64 steps numpy computes.  Both give [path] and
    [use_dpi] to the file-save call, made when [path] is not None.
    [plot_confusion_matrix] gives [image] and [dpi] to the file-save call,
    made when [image] is true. *)
Theorem options_are_forwarded :
  (forall array step_size use_label use_title use_xlabel use_ylabel style_sheet
          use_grid width height use_linestyle use_dpi path show_plot st st',
     plot_array array step_size use_label use_title use_xlabel use_ylabel
       style_sheet use_grid width height use_linestyle use_dpi path show_plot
       st = (Returns tt, st') ->
     exists n steps new,
       py_len array = Some n /\
       np_steps n step_size = Returns steps /\
       st' = add_calls (use_style st style_sheet) new /\
       plot_calls new = [(steps, array, use_linestyle, use_label)] /\
       savefig_calls new = if is_none path then [] else [(path, use_dpi)]) /\
  (forall dict_arrays step_size use_title use_xlabel use_ylabel style_sheet
          use_grid width height use_linestyles use_dpi path show_plot st st',
     plot_dict dict_arrays step_size use_title use_xlabel use_ylabel
       style_sheet use_grid width height use_linestyles use_dpi path show_plot
       st = (Returns tt, st') ->
     exists entries new,
       dict_arrays = PyDict entries /\
       st' = add_calls (use_style st style_sheet) new /\
       length (plot_calls new) = length entries /\
       (forall index use_label array,
          entries !! index = Some (use_label, array) ->
          exists n steps linestyle,
            py_len array = Some n /\
            np_steps n step_size = Returns steps /\
            (if is_none use_linestyles then linestyle = PyStr "-"
             else py_getitem use_linestyles index = Returns linestyle) /\
            plot_calls new !! index = Some (steps, array, linestyle, use_label)) /\
       savefig_calls new = if is_none path then [] else [(path, use_dpi)]) /\
  (forall (y_true y_pred : list Z) classes normalize title cmap image verbose
          magnify dpi st cm st',
     plot_confusion_matrix y_true y_pred classes normalize title cmap image
       verbose magnify dpi st = (Returns cm, st') ->
     exists save new,
       py_truth image = Some save /\
       st' = add_calls st new /\
       savefig_calls new = if save then [(image, dpi)] else []).
Proof.
  split; [|split].
  - intros array step_size use_label use_title use_xlabel use_ylabel style_sheet
      use_grid width height use_linestyle use_dpi path show_plot st st'.
    rewrite plot_array_unfold.
    destruct array as [| | | |items| | | |]; try done.
    destruct (style_outcome style_sheet (style_available st)) as [[]|e]; [|done].
    cbv zeta. destruct (linestyle_outcome use_linestyle) as [[]|e]; [|done].
    destruct (np_steps (length items) step_size) as [steps|e] eqn:Hsteps; [|done].
    intros [= <-]. exists (length items), steps. eexists.
    split; [done|]. split; [done|]. split; [done|].
    by rewrite plot_calls_plot_array, savefig_calls_plot_array.
  - intros dict_arrays step_size use_title use_xlabel use_ylabel style_sheet
      use_grid width height use_linestyles use_dpi path show_plot st st'.
    rewrite plot_dict_unfold.
    destruct dict_arrays as [| | | | | | |entries|]; try done.
    destruct (first_raise entry_outcome entries) as [[]|e]; [|done].
    destruct (style_outcome style_sheet (style_available st)) as [[]|e]; [|done].
    cbv zeta. destruct (checked_linestyles use_linestyles) as [[]|e]; [|done].
    destruct (plotted _ _ _) as [plots [[]|e]] eqn:Hplotted; [|done].
    intros [= <-]. exists entries. eexists. split; [done|]. split; [done|].
    rewrite plot_calls_plot_dict, savefig_calls_plot_dict.
    apply plotted_returns in Hplotted as [Hlength Hlookup].
    split; [done|]. split; [|done].
    intros index use_label array Hindex.
    destruct (Hlookup index use_label array Hindex)
      as (n & steps & linestyle & Hn & Hsteps & Hget & Hplot).
    exists n, steps, linestyle. split; [done|]. split; [done|]. split; [|done].
    unfold resolved_linestyles in Hget. simpl in Hget.
    destruct (is_none use_linestyles); [|done].
    simpl in Hget. destruct (replicate _ _ !! index) as [style|] eqn:Hstyle;
      [|done].
    apply lookup_replicate in Hstyle as [-> _]. by injection Hget as <-.
  - intros y_true y_pred classes normalize title cmap image verbose magnify dpi
      st cm st'.
    rewrite plot_confusion_matrix_unfold.
    destruct (negb _); [done|].
    destruct (py_list classes) as [names|]; [|done].
    destruct (assertion_fails y_true names); [done|].
    destruct (py_truth title) as [has_title|]; [|done].
    simpl. destruct (ticklabels_fit _ _); [|done].
    destruct (np_max _) as [top|]; [|done].
    destruct (py_truth image) as [save|]; [|done].
    intros [= <- <-]. exists save. eexists. split; [done|]. split; [done|].
    unfold plot_confusion_matrix_calls, heatmap_calls, axes_calls.
    rewrite !savefig_calls_app, annotations_no_savefig.
    by destruct (0 <? verbose)%Z, save.
Qed.

Lemma options_are_forwarded_witness :
  (exists new,
     snd (plot_array (PyList [PyInt 3; PyInt 5]) (2 ^ 62) (PyStr "loss") PyNone
            PyNone PyNone (PyStr "ggplot") (PyBool true) 3 1 (PyStr "--")
            (PyInt 20) (PyStr "loss.png") (PyBool false) example_state) =
     add_calls (use_style example_state (PyStr "ggplot")) new /\
     plot_calls new =
       [([2 ^ 62; - 2 ^ 63], PyList [PyInt 3; PyInt 5], PyStr "--",
         PyStr "loss")] /\
     savefig_calls new = [(PyStr "loss.png", PyInt 20)]) /\
  (exists entries new,
     PyDict [(PyStr "a", PyList [PyInt 3]); (PyStr "b", PyList [PyInt 5])] =
       PyDict entries /\
     snd (plot_dict
            (PyDict [(PyStr "a", PyList [PyInt 3]); (PyStr "b", PyList [PyInt 5])])
            1 PyNone PyNone PyNone (PyStr "ggplot") (PyBool true) 3 1
            (PyList [PyStr "--"; PyStr ":"]) (PyInt 20) (PyStr "ab.png")
            (PyBool false) example_state) =
     add_calls (use_style example_state (PyStr "ggplot")) new /\
     length (plot_calls new) = length entries /\
     (forall index use_label array,
        entries !! index = Some (use_label, array) ->
        exists n steps linestyle,
          py_len array = Some n /\
          np_steps n 1 = Returns steps /\
          py_getitem (PyList [PyStr "--"; PyStr ":"]) index = Returns linestyle /\
          plot_calls new !! index = Some (steps, array, linestyle, use_label)) /\
     savefig_calls new = [(PyStr "ab.png", PyInt 20)]) /\
  (exists save new,
     py_truth (PyStr "cm.png") = Some save /\
     snd (plot_confusion_matrix [0; 1; 1; 0] [0; 1; 0; 0] default_classes false
            PyNone (PyOther "Blues") (PyStr "cm.png") 0 (12 # 10) (PyInt 50)
            example_state) = add_calls example_state new /\
     savefig_calls new = if save then [(PyStr "cm.png", PyInt 50)] else []).
Proof.
  destruct options_are_forwarded as (Harray & Hdict & Hmatrix).
  split; [|split].
  - destruct (Harray (PyList [PyInt 3; PyInt 5]) (2 ^ 62) (PyStr "loss") PyNone
                PyNone PyNone (PyStr "ggplot") (PyBool true) 3%Q 1%Q (PyStr "--")
                (PyInt 20) (PyStr "loss.png") (PyBool false) example_state _
                eq_refl)
      as (n & steps & new & Hn & Hsteps & Hstate & Hplot & Hsave).
    injection Hn as <-. vm_compute in Hsteps. injection Hsteps as <-.
    exists new. split; [exact Hstate|]. split; [exact Hplot | exact Hsave].
  - exact (Hdict
             (PyDict [(PyStr "a", PyList [PyInt 3]); (PyStr "b", PyList [PyInt 5])])
             1 PyNone PyNone PyNone (PyStr "ggplot") (PyBool true) 3%Q 1%Q
             (PyList [PyStr "--"; PyStr ":"]) (PyInt 20) (PyStr "ab.png")
             (PyBool false) example_state _ eq_refl).
  - exact (Hmatrix [0; 1; 1; 0] [0; 1; 0; 0] default_classes false PyNone
             (PyOther "Blues") (PyStr "cm.png") 0 (12 # 10)%Q (PyInt 50)
             example_state _ _ eq_refl).
Defined.

(** C8: [plot_array] raises the ValueError of its format check for every
    ndarray, as for every input that is not a list, and plots nothing; the
    check on a value of [dict_arrays] does the same for an ndarray, so a
    dictionary with an ndarray value makes [plot_dict] raise a ValueError
    of its format checks. *)
Theorem ndarray_is_rejected :
  (forall items step_size use_label use_title use_xlabel use_ylabel style_sheet
          use_grid width height use_linestyle use_dpi path show_plot st,
     plot_array (PyNdarray items) step_size use_label use_title use_xlabel
       use_ylabel style_sheet use_grid width height use_linestyle use_dpi path
       show_plot st = (Raises (ValueError array_needs_list), st)) /\
  (forall array step_size use_label use_title use_xlabel use_ylabel style_sheet
          use_grid width height use_linestyle use_dpi path show_plot st,
     isinstance_list array = false ->
     plot_array array step_size use_label use_title use_xlabel use_ylabel
       style_sheet use_grid width height use_linestyle use_dpi path show_plot
       st = (Raises (ValueError array_needs_list), st)) /\
  (forall label items st,
     isinstance_str label = true ->
     check_entry (label, PyNdarray items) st =
     (Raises (ValueError dict_needs_lists_values), st)) /\
  (forall entries label items step_size use_title use_xlabel use_ylabel
          style_sheet use_grid width height use_linestyles use_dpi path
          show_plot st,
     (label, PyNdarray items) ∈ entries ->
     exists msg,
       (msg = dict_needs_string_keys \/ msg = dict_needs_lists_values) /\
       plot_dict (PyDict entries) step_size use_title use_xlabel use_ylabel
         style_sheet use_grid width height use_linestyles use_dpi path
         show_plot st = (Raises (ValueError msg), st)).
Proof.
  split; [|split; [|split]].
  - intros. by apply plot_array_not_list.
  - intros. by apply plot_array_not_list.
  - intros label items st Hlabel. rewrite check_entry_run.
    unfold entry_outcome. simpl. by rewrite Hlabel.
  - intros entries label items step_size use_title use_xlabel use_ylabel
      style_sheet use_grid width height use_linestyles use_dpi path show_plot
      st Hin.
    destruct (ndarray_entry_raises label items) as [e He].
    destruct (first_raise_fails entry_outcome entries _ _ Hin He)
      as (entry & e' & _ & Hentry & Hfirst).
    rewrite plot_dict_unfold, Hfirst.
    apply entry_outcome_raises in Hentry as [-> | ->]; eauto.
Qed.

Lemma ndarray_is_rejected_witness :
  check_entry (PyStr "loss", PyNdarray [PyInt 1; PyInt 2]) example_state =
    (Raises (ValueError dict_needs_lists_values), example_state) /\
  plot_array (PyTuple [PyInt 1; PyInt 2]) 1 PyNone PyNone PyNone PyNone
    (PyStr "ggplot") (PyBool true) 3 1 (PyStr "-") (PyInt 20) PyNone
    (PyBool true) example_state =
    (Raises (ValueError array_needs_list), example_state) /\
  exists msg,
    (msg = dict_needs_string_keys \/ msg = dict_needs_lists_values) /\
    plot_dict (PyDict [(PyStr "a", PyList [PyInt 1]);
                       (PyStr "b", PyNdarray [PyInt 1; PyInt 2])])
      1 PyNone PyNone PyNone (PyStr "ggplot") (PyBool true) 3 1 PyNone
      (PyInt 20) PyNone (PyBool true) example_state =
    (Raises (ValueError msg), example_state).
Proof.
  destruct ndarray_is_rejected as (_ & Harray & Hcheck & Hdict).
  split; [|split].
  - by apply Hcheck.
  - by apply Harray.
  - apply (Hdict _ (PyStr "b") [PyInt 1; PyInt 2]).
    apply list_elem_of_further, list_elem_of_here.
Defined.






(** * Further properties *)

(** ** plot_array *)

(** What an accepted call of [plot_array] has done. *)
Lemma plot_array_returns_inv array step_size use_label use_title use_xlabel
    use_ylabel style_sheet use_grid width height use_linestyle use_dpi path
    show_plot st st' :
  plot_array array step_size use_label use_title use_xlabel use_ylabel
    style_sheet use_grid width height use_linestyle use_dpi path show_plot st =
  (Returns tt, st') ->
  exists items steps,
    array = PyList items /\
    py_in style_sheet (style_available st) = true /\
    py_in use_linestyle linestyles = true /\
    np_steps (length items) step_size = Returns steps /\
    st' = add_calls (use_style st style_sheet)
            (plot_array_calls steps array use_label use_title use_xlabel
               use_ylabel use_grid width height use_linestyle use_dpi path
               show_plot).
Proof.
  rewrite plot_array_unfold.
  destruct array as [| | | |items| | | |]; try done.
  destruct (style_outcome style_sheet (style_available st)) as [[]|e] eqn:Hstyle;
    [|done].
  cbv zeta.
  destruct (linestyle_outcome use_linestyle) as [[]|e] eqn:Hline; [|done].
  destruct (np_steps (length items) step_size) as [steps|e] eqn:Hsteps; [|done].
  intros [= <-]. exists items, steps.
  apply membership_returns in Hstyle, Hline. done.
Qed.

(** X1: when [plot_array] returns, [array] is a list, [style_sheet in
    plt.style.available] and [use_linestyle in linestyles] are true and
    numpy could compute the steps; the call has made [style_sheet] the
    active style and then made the calls below, in that order, after those
    already made. *)
Theorem plot_array_accepted_calls array step_size use_label use_title
    use_xlabel use_ylabel style_sheet use_grid width height use_linestyle
    use_dpi path show_plot st st' :
  plot_array array step_size use_label use_title use_xlabel use_ylabel
    style_sheet use_grid width height use_linestyle use_dpi path show_plot st =
  (Returns tt, st') ->
  exists items steps,
    array = PyList items /\
    py_in style_sheet (style_available st) = true /\
    py_in use_linestyle linestyles = true /\
    np_steps (length items) step_size = Returns steps /\
    st' = add_calls (use_style st style_sheet)
            ([plt_subplot 1 2 1;
              plt_plot steps array use_linestyle use_label;
              plt_title use_title; plt_xlabel use_xlabel;
              plt_ylabel use_ylabel] ++
             (if is_none use_label then [] else [plt_legend "best"]) ++
             [plt_grid use_grid; plt_tight_layout;
              fig_scale_size_inches width height] ++
             (if is_none path then [] else [fig_savefig path use_dpi]) ++
             (if is_true show_plot then [plt_show] else [])).
Proof. apply plot_array_returns_inv. Qed.

Lemma plot_array_accepted_calls_witness :
  exists items steps,
    PyList [PyInt 7; PyInt 9] = PyList items /\
    py_in (PyNdarray [PyStr "ggplot"]) (style_available example_state) = true /\
    py_in (PyStr "-.") linestyles = true /\
    np_steps (length items) 10 = Returns steps /\
    snd (plot_array (PyList [PyInt 7; PyInt 9]) 10 PyNone PyNone PyNone PyNone
           (PyNdarray [PyStr "ggplot"]) (PyBool true) 3 1 (PyStr "-.")
           (PyInt 20) PyNone (PyInt 1) example_state) =
    add_calls (use_style example_state (PyNdarray [PyStr "ggplot"]))
      ([plt_subplot 1 2 1;
        plt_plot steps (PyList [PyInt 7; PyInt 9]) (PyStr "-.") PyNone;
        plt_title PyNone; plt_xlabel PyNone; plt_ylabel PyNone] ++
       [] ++
       [plt_grid (PyBool true); plt_tight_layout; fig_scale_size_inches 3 1] ++
       [] ++ []).
Proof.
  exact (plot_array_accepted_calls (PyList [PyInt 7; PyInt 9]) 10 PyNone PyNone
           PyNone PyNone (PyNdarray [PyStr "ggplot"]) (PyBool true) 3%Q 1%Q
           (PyStr "-.") (PyInt 20) PyNone (PyInt 1) example_state _ eq_refl).
Defined.

Lemma int64_steps_length n step_size : length (int64_steps n step_size) = n.
Proof. unfold int64_steps. rewrite length_map, length_seqZ. lia. Qed.

Lemma int64_steps_lookup n step_size k :
  (k < n)%nat ->
  int64_steps n step_size !! k = Some (wrap_int64 ((Z.of_nat k + 1) * step_size)).
Proof.
  intros Hk. unfold int64_steps. rewrite list_lookup_fmap.
  rewrite lookup_seqZ_lt by lia. simpl. do 2 f_equal. lia.
Qed.

Lemma wrap_int64_fits z : fits_int64 z = true -> wrap_int64 z = z.
Proof.
  unfold fits_int64, wrap_int64. intros [Hlo Hhi]%andb_true_iff.
  apply Z.leb_le in Hlo. apply Z.ltb_lt in Hhi.
  rewrite Z.mod_small by lia. lia.
Qed.

(** X2: in an accepted call of [plot_array] the single line plot has one
    x value per element of [array], and the k-th of them (from 0) is the
    int64 product (k + 1) * step_size: the values are plotted against
    1, 2, 3, ... scaled by the step, as long as the product fits an int64,
    and against a wrapped-around number beyond. *)
Theorem plot_array_x_values array step_size use_label use_title use_xlabel
    use_ylabel style_sheet use_grid width height use_linestyle use_dpi path
    show_plot st st' :
  plot_array array step_size use_label use_title use_xlabel use_ylabel
    style_sheet use_grid width height use_linestyle use_dpi path show_plot st =
  (Returns tt, st') ->
  exists items steps new,
    array = PyList items /\
    st' = add_calls (use_style st style_sheet) new /\
    plot_calls new = [(steps, array, use_linestyle, use_label)] /\
    length steps = length items /\
    forall k, (k < length items)%nat ->
      steps !! k = Some (wrap_int64 ((Z.of_nat k + 1) * step_size)) /\
      (fits_int64 ((Z.of_nat k + 1) * step_size) = true ->
       steps !! k = Some ((Z.of_nat k + 1) * step_size)).
Proof.
  intros H.
  apply plot_array_returns_inv in H as (items & steps & -> & _ & _ & Hsteps & ->).
  apply np_steps_returns in Hsteps as ->.
  exists items, (int64_steps (length items) step_size). eexists.
  split; [done|]. split; [done|]. split; [apply plot_calls_plot_array|].
  split; [apply int64_steps_length|]. intros k Hk.
  rewrite int64_steps_lookup by done. split; [done|].
  intros Hfits. by rewrite wrap_int64_fits.
Qed.

Lemma plot_array_x_values_witness :
  exists items steps new,
    PyList [PyInt 7; PyInt 9; PyInt 4] = PyList items /\
    snd (plot_array (PyList [PyInt 7; PyInt 9; PyInt 4]) (2 ^ 62) PyNone PyNone
           PyNone PyNone (PyStr "ggplot") (PyBool true) 3 1 (PyStr "-")
           (PyInt 20) PyNone (PyBool false) example_state) =
    add_calls (use_style example_state (PyStr "ggplot")) new /\
    plot_calls new =
      [(steps, PyList [PyInt 7; PyInt 9; PyInt 4], PyStr "-", PyNone)] /\
    length steps = length items /\
    forall k, (k < length items)%nat ->
      steps !! k = Some (wrap_int64 ((Z.of_nat k + 1) * 2 ^ 62)) /\
      (fits_int64 ((Z.of_nat k + 1) * 2 ^ 62) = true ->
       steps !! k = Some ((Z.of_nat k + 1) * 2 ^ 62)).
Proof.
  exact (plot_array_x_values (PyList [PyInt 7; PyInt 9; PyInt 4]) (2 ^ 62) PyNone
           PyNone PyNone PyNone (PyStr "ggplot") (PyBool true) 3%Q 1%Q
           (PyStr "-") (PyInt 20) PyNone (PyBool false) example_state _ eq_refl).
Defined.

Lemma is_true_spec x : is_true x = true <-> x = PyBool true.
Proof. split; [|by intros ->]. by destruct x as [|[]| | | | | | |]. Qed.

Lemma is_none_spec x : is_none x = true <-> x = PyNone.
Proof. split; [|by intros ->]. by destruct x. Qed.

Lemma plots_only_plot plots c :
  c ∈ map plot_of plots ->
  exists steps array linestyle label, c = plt_plot steps array linestyle label.
Proof.
  intros Hin. apply list_elem_of_fmap in Hin
    as ([[[steps array] linestyle] label] & -> & _).
  by exists steps, array, linestyle, label.
Qed.

(** X3: in an accepted call, [plt.show()] is called exactly when
    [show_plot] is the Boolean True (a value that is merely true, such as 1,
    does not show the figure); [plot_array] draws the legend exactly when
    [use_label] is not None, and [plot_dict] always draws it. *)
Theorem show_and_legend_calls :
  (forall array step_size use_label use_title use_xlabel use_ylabel style_sheet
          use_grid width height use_linestyle use_dpi path show_plot st st',
     plot_array array step_size use_label use_title use_xlabel use_ylabel
       style_sheet use_grid width height use_linestyle use_dpi path show_plot
       st = (Returns tt, st') ->
     exists new,
       st' = add_calls (use_style st style_sheet) new /\
       (plt_show ∈ new <-> show_plot = PyBool true) /\
       (plt_legend "best" ∈ new <-> use_label <> PyNone)) /\
  (forall dict_arrays step_size use_title use_xlabel use_ylabel style_sheet
          use_grid width height use_linestyles use_dpi path show_plot st st',
     plot_dict dict_arrays step_size use_title use_xlabel use_ylabel
       style_sheet use_grid width height use_linestyles use_dpi path show_plot
       st = (Returns tt, st') ->
     exists new,
       st' = add_calls (use_style st style_sheet) new /\
       (plt_show ∈ new <-> show_plot = PyBool true) /\
       plt_legend "best" ∈ new).
Proof.
  split.
  - intros array step_size use_label use_title use_xlabel use_ylabel style_sheet
      use_grid width height use_linestyle use_dpi path show_plot st st' H.
    apply plot_array_returns_inv in H as (items & steps & _ & _ & _ & _ & ->).
    eexists. split; [done|]. unfold plot_array_calls.
    rewrite <- is_true_spec, <- is_none_spec.
    destruct (is_none use_label), (is_none path), (is_true show_plot);
      rewrite ?elem_of_app, ?elem_of_cons, ?elem_of_nil; naive_solver.
  - intros dict_arrays step_size use_title use_xlabel use_ylabel style_sheet
      use_grid width height use_linestyles use_dpi path show_plot st st'.
    rewrite plot_dict_unfold.
    destruct dict_arrays as [| | | | | | |entries|]; try done.
    destruct (first_raise entry_outcome entries) as [[]|e]; [|done].
    destruct (style_outcome style_sheet (style_available st)) as [[]|e]; [|done].
    simpl. destruct (checked_linestyles use_linestyles) as [[]|e]; [|done].
    destruct (plotted _ _ _) as [plots [[]|e]]; [|done].
    pose proof (plots_only_plot plots) as Hplots.
    intros [= <-]. eexists. split; [done|].
    unfold plot_dict_calls. rewrite <- is_true_spec.
    destruct (is_none path), (is_true show_plot);
      rewrite ?elem_of_app, ?elem_of_cons, ?elem_of_nil;
      (split; [split; [intros Hin|]|]; [|naive_solver..]);
      destruct Hin as [?|[Hin|?]]; try naive_solver;
      destruct (Hplots _ Hin) as (? & ? & ? & ? & ?); done.
Qed.

Lemma show_and_legend_calls_witness :
  exists new,
    snd (plot_array (PyList [PyInt 1]) 1 (PyStr "loss") PyNone PyNone PyNone
           (PyStr "ggplot") (PyBool true) 3 1 (PyStr "-") (PyInt 20) PyNone
           (PyInt 1) example_state) =
    add_calls (use_style example_state (PyStr "ggplot")) new /\
    (plt_show ∈ new <-> PyInt 1 = PyBool true) /\
    (plt_legend "best" ∈ new <-> PyStr "loss" <> PyNone).
Proof.
  exact (proj1 show_and_legend_calls (PyList [PyInt 1]) 1 (PyStr "loss") PyNone
           PyNone PyNone (PyStr "ggplot") (PyBool true) 3%Q 1%Q (PyStr "-")
           (PyInt 20) PyNone (PyInt 1) example_state _ eq_refl).
Defined.

(** X4: whatever the outcome, the three functions only add calls after the
    ones already made and never change [plt.style.available];
    [plot_array] and [plot_dict] leave the active style as it was or make
    [style_sheet] the active one, and [plot_confusion_matrix] never changes
    it: a heatmap is drawn under whatever style an earlier call left. *)
Theorem calls_are_only_added :
  (forall array step_size use_label use_title use_xlabel use_ylabel style_sheet
          use_grid width height use_linestyle use_dpi path show_plot st,
     let st' := snd (plot_array array step_size use_label use_title use_xlabel
                       use_ylabel style_sheet use_grid width height
                       use_linestyle use_dpi path show_plot st) in
     style_available st' = style_available st /\
     (active_style st' = active_style st \/ active_style st' = style_sheet) /\
     exists new, calls st' = calls st ++ new) /\
  (forall dict_arrays step_size use_title use_xlabel use_ylabel style_sheet
          use_grid width height use_linestyles use_dpi path show_plot st,
     let st' := snd (plot_dict dict_arrays step_size use_title use_xlabel
                       use_ylabel style_sheet use_grid width height
                       use_linestyles use_dpi path show_plot st) in
     style_available st' = style_available st /\
     (active_style st' = active_style st \/ active_style st' = style_sheet) /\
     exists new, calls st' = calls st ++ new) /\
  (forall (y_true y_pred : list Z) classes normalize title cmap image verbose
          magnify dpi st,
     let st' := snd (plot_confusion_matrix y_true y_pred classes normalize
                       title cmap image verbose magnify dpi st) in
     style_available st' = style_available st /\
     active_style st' = active_style st /\
     exists new, calls st' = calls st ++ new).
Proof.
  assert (Hsame : forall st : plt_state, exists new, calls st = calls st ++ new).
  { intros st. exists []. by rewrite app_nil_r. }
  split; [|split].
  - intros array step_size use_label use_title use_xlabel use_ylabel style_sheet
      use_grid width height use_linestyle use_dpi path show_plot st.
    rewrite plot_array_unfold.
    destruct array; simpl; eauto.
    destruct (style_outcome style_sheet (style_available st)) as [[]|e];
      simpl; eauto.
    destruct (linestyle_outcome use_linestyle) as [[]|e]; simpl; eauto.
    destruct (np_steps _ _) as [steps|e]; simpl; eauto.
  - intros dict_arrays step_size use_title use_xlabel use_ylabel style_sheet
      use_grid width height use_linestyles use_dpi path show_plot st.
    rewrite plot_dict_unfold.
    destruct dict_arrays as [| | | | | | |entries|]; simpl; eauto.
    destruct (first_raise entry_outcome entries) as [[]|e]; simpl; eauto.
    destruct (style_outcome style_sheet (style_available st)) as [[]|e];
      simpl; eauto.
    destruct (checked_linestyles use_linestyles) as [[]|e]; simpl; eauto.
    destruct (plotted _ _ _) as [plots [[]|e]]; simpl; eauto.
  - intros y_true y_pred classes normalize title cmap image verbose magnify dpi
      st.
    rewrite plot_confusion_matrix_unfold.
    destruct (negb _); simpl; eauto.
    destruct (py_list classes) as [names|]; simpl; eauto.
    destruct (assertion_fails y_true names); simpl; eauto.
    destruct (py_truth title) as [has_title|]; simpl; eauto.
    destruct (ticklabels_fit _ _); simpl; eauto.
    destruct (np_max _) as [top|]; simpl; eauto.
    destruct (py_truth image) as [save|]; simpl; eauto.
Qed.

(** ** plot_dict *)

Lemma first_raise_returns {A} (check : A -> outcome unit) xs :
  first_raise check xs = Returns tt -> Forall (fun x => check x = Returns tt) xs.
Proof.
  induction xs as [|x rest IH]; simpl; [by constructor|].
  destruct (check x) as [[]|e] eqn:Hx; [|done].
  intros H. constructor; [done|by apply IH].
Qed.

(** What an accepted call of [plot_dict] has done. *)
Lemma plot_dict_returns_inv dict_arrays step_size use_title use_xlabel
    use_ylabel style_sheet use_grid width height use_linestyles use_dpi path
    show_plot st st' :
  plot_dict dict_arrays step_size use_title use_xlabel use_ylabel style_sheet
    use_grid width height use_linestyles use_dpi path show_plot st =
  (Returns tt, st') ->
  exists entries plots,
    dict_arrays = PyDict entries /\
    Forall valid_entry entries /\
    py_in style_sheet (style_available st) = true /\
    checked_linestyles use_linestyles = Returns tt /\
    plotted step_size (resolved_linestyles entries use_linestyles)
            (enumerate entries) = (plots, Returns tt) /\
    st' = add_calls (use_style st style_sheet)
            (plot_dict_calls plots use_title use_xlabel use_ylabel use_grid
               width height use_dpi path show_plot).
Proof.
  rewrite plot_dict_unfold.
  destruct dict_arrays as [| | | | | | |entries|]; try done.
  destruct (first_raise entry_outcome entries) as [[]|e] eqn:Hentries; [|done].
  destruct (style_outcome style_sheet (style_available st)) as [[]|e] eqn:Hstyle;
    [|done].
  cbv zeta.
  destruct (checked_linestyles use_linestyles) as [[]|e] eqn:Hchecked; [|done].
  destruct (plotted _ _ _) as [plots [[]|e]] eqn:Hplotted; [|done].
  intros [= <-]. exists entries, plots. split; [done|]. split.
  - apply first_raise_returns in Hentries.
    eapply Forall_impl; [exact Hentries|]. intros [label array].
    unfold entry_outcome, valid_entry. simpl.
    destruct (isinstance_str label); simpl; [|done].
    by destruct (isinstance_list array).
  - by apply membership_returns in Hstyle.
Qed.

(** The line plots of an accepted call of [plot_dict] with a sequence of
    line styles. *)
Lemma plot_dict_sequence_inv entries step_size use_title use_xlabel use_ylabel
    style_sheet use_grid width height use_linestyles styles use_dpi path
    show_plot st st' :
  plot_dict (PyDict entries) step_size use_title use_xlabel use_ylabel
    style_sheet use_grid width height use_linestyles use_dpi path show_plot st =
  (Returns tt, st') ->
  py_sequence use_linestyles = Some styles ->
  (length entries <= length styles)%nat /\
  Forall (fun style => py_in style linestyles = true) styles /\
  exists new,
    st' = add_calls (use_style st style_sheet) new /\
    length (plot_calls new) = length entries /\
    forall i use_label array,
      entries !! i = Some (use_label, array) ->
      exists steps linestyle,
        styles !! i = Some linestyle /\
        plot_calls new !! i = Some (steps, array, linestyle, use_label).
Proof.
  intros H Hseq.
  apply plot_dict_returns_inv in H
    as (entries' & plots & [= <-] & _ & _ & Hchecked & Hplotted & ->).
  destruct (py_sequence_checked _ _ Hseq) as [Hcheck Hnone].
  rewrite Hcheck in Hchecked. apply first_raise_returns in Hchecked.
  unfold resolved_linestyles in Hplotted. rewrite Hnone in Hplotted.
  apply plotted_returns in Hplotted as [Hlength Hlookup].
  assert (Hstyle : forall i use_label array,
    entries !! i = Some (use_label, array) ->
    exists steps linestyle,
      styles !! i = Some linestyle /\
      plots !! i = Some (steps, array, linestyle, use_label)).
  { intros i use_label array Hi.
    destruct (Hlookup i use_label array Hi)
      as (n & steps & linestyle & _ & _ & Hget & Hplot).
    exists steps, linestyle. split; [|done]. simpl in Hget.
    rewrite (py_sequence_getitem _ _ _ Hseq) in Hget.
    destruct (styles !! i) as [style|]; [|done]. by injection Hget as <-. }
  split; [|split].
  - destruct (decide (length entries = 0%nat)) as [->|Hne]; [lia|].
    destruct (lookup_lt_is_Some_2 entries (length entries - 1))
      as [[use_label array] Hlast]; [lia|].
    destruct (Hstyle _ _ _ Hlast) as (steps & linestyle & Hget & _).
    apply lookup_lt_Some in Hget. lia.
  - eapply Forall_impl; [exact Hchecked|]. intros style Hs.
    by apply membership_returns in Hs.
  - eexists. split; [done|]. rewrite plot_calls_plot_dict. by split.
Qed.

(** X5: [use_linestyles] may be any sequence (a list, a tuple, an array or
    a string).  When [plot_dict] returns with one, each of its elements is
    supported and there are at least as many as [dict_arrays] has keys; the
    i-th series was plotted with the i-th element, the key as label and the
    values as y values, and the surplus elements were ignored. *)
Theorem plot_dict_with_enough_linestyles entries step_size use_title use_xlabel
    use_ylabel style_sheet use_grid width height use_linestyles styles use_dpi
    path show_plot st st' :
  plot_dict (PyDict entries) step_size use_title use_xlabel use_ylabel
    style_sheet use_grid width height use_linestyles use_dpi path show_plot st =
  (Returns tt, st') ->
  py_sequence use_linestyles = Some styles ->
  (length entries <= length styles)%nat /\
  Forall (fun style => py_in style linestyles = true) styles /\
  exists new,
    st' = add_calls (use_style st style_sheet) new /\
    length (plot_calls new) = length entries /\
    forall i use_label array,
      entries !! i = Some (use_label, array) ->
      exists steps linestyle,
        styles !! i = Some linestyle /\
        plot_calls new !! i = Some (steps, array, linestyle, use_label).
Proof. apply plot_dict_sequence_inv. Qed.

Lemma plot_dict_with_enough_linestyles_witness :
  (length [(PyStr "a", PyList [PyInt 3])] <= length [PyStr "-."; PyStr ":"])%nat /\
  Forall (fun style => py_in style linestyles = true) [PyStr "-."; PyStr ":"] /\
  exists new,
    snd (plot_dict (PyDict [(PyStr "a", PyList [PyInt 3])]) 1 PyNone PyNone
           PyNone (PyStr "ggplot") (PyBool true) 3 1
           (PyTuple [PyStr "-."; PyStr ":"]) (PyInt 20) PyNone (PyBool false)
           example_state) =
    add_calls (use_style example_state (PyStr "ggplot")) new /\
    length (plot_calls new) = length [(PyStr "a", PyList [PyInt 3])] /\
    forall i use_label array,
      [(PyStr "a", PyList [PyInt 3])] !! i = Some (use_label, array) ->
      exists steps linestyle,
        [PyStr "-."; PyStr ":"] !! i = Some linestyle /\
        plot_calls new !! i = Some (steps, array, linestyle, use_label).
Proof.
  exact (plot_dict_with_enough_linestyles [(PyStr "a", PyList [PyInt 3])] 1
           PyNone PyNone PyNone (PyStr "ggplot") (PyBool true) 3%Q 1%Q
           (PyTuple [PyStr "-."; PyStr ":"]) [PyStr "-."; PyStr ":"] (PyInt 20)
           PyNone (PyBool false) example_state _ eq_refl eq_refl).
Defined.

(** X6: without [use_linestyles] the list of styles is made as long as
    [dict_arrays]: when the call returns, every series was drawn with the
    solid style '-', one line plot per key and in the order of the keys. *)
Theorem plot_dict_default_linestyles entries step_size use_title use_xlabel
    use_ylabel style_sheet use_grid width height use_dpi path show_plot st st' :
  plot_dict (PyDict entries) step_size use_title use_xlabel use_ylabel
    style_sheet use_grid width height PyNone use_dpi path show_plot st =
  (Returns tt, st') ->
  exists new,
    st' = add_calls (use_style st style_sheet) new /\
    length (plot_calls new) = length entries /\
    forall i use_label array,
      entries !! i = Some (use_label, array) ->
      exists steps,
        plot_calls new !! i = Some (steps, array, PyStr "-", use_label).
Proof.
  intros H.
  apply plot_dict_returns_inv in H
    as (entries' & plots & [= <-] & _ & _ & _ & Hplotted & ->).
  apply plotted_returns in Hplotted as [Hlength Hlookup].
  eexists. split; [done|]. rewrite plot_calls_plot_dict. split; [done|].
  intros i use_label array Hi.
  destruct (Hlookup i use_label array Hi)
    as (n & steps & linestyle & _ & _ & Hget & Hplot).
  exists steps. simpl in Hget.
  destruct (replicate _ _ !! i) as [style|] eqn:Hstyle; [|done].
  apply lookup_replicate in Hstyle as [-> _]. by injection Hget as <-.
Qed.

Lemma plot_dict_default_linestyles_witness :
  exists new,
    snd (plot_dict
           (PyDict [(PyStr "a", PyList [PyInt 3]); (PyStr "b", PyList [])])
           5 PyNone PyNone PyNone (PyStr "ggplot") (PyBool true) 3 1 PyNone
           (PyInt 20) PyNone (PyBool false) example_state) =
    add_calls (use_style example_state (PyStr "ggplot")) new /\
    length (plot_calls new) =
      length [(PyStr "a", PyList [PyInt 3]); (PyStr "b", PyList [])] /\
    forall i use_label array,
      [(PyStr "a", PyList [PyInt 3]); (PyStr "b", PyList [])] !! i =
        Some (use_label, array) ->
      exists steps,
        plot_calls new !! i = Some (steps, array, PyStr "-", use_label).
Proof.
  exact (plot_dict_default_linestyles
           [(PyStr "a", PyList [PyInt 3]); (PyStr "b", PyList [])] 5 PyNone
           PyNone PyNone (PyStr "ggplot") (PyBool true) 3%Q 1%Q (PyInt 20) PyNone
           (PyBool false) example_state _ eq_refl).
Defined.

Lemma py_chars_spec s :
  py_chars s = map (fun c => PyStr (String c EmptyString)) (String.list_ascii_of_string s).
Proof. induction s as [|c rest IH]; simpl; [done|]. by rewrite IH. Qed.

Lemma one_character_supported c :
  py_in (PyStr (String c EmptyString)) linestyles = true <-> one_character_style c.
Proof.
  rewrite py_in_str. unfold one_character_style, linestyles.
  rewrite !elem_of_cons, elem_of_nil. split.
  - intros [H|[H|[H|[H|[]]]]]; try discriminate H; auto.
  - intros [H|H]; auto.
Qed.

(** X7: a string given as [use_linestyles] is read character by character.
    When [plot_dict] returns with one, each of its characters is '-' or ':'
    and there is at least one per series; the i-th series was drawn with the
    i-th character, so '--' draws two solid lines.  With valid [dict_arrays]
    and [style_sheet], a string with any other character, such as '-.', is
    rejected with the ValueError of the line-style check for that
    character, after the style sheet has been applied. *)
Theorem plot_dict_string_of_linestyles entries step_size use_title use_xlabel
    use_ylabel style_sheet use_grid width height s use_dpi path show_plot st :
  Forall valid_entry entries ->
  supported_style style_sheet (style_available st) ->
  (forall st',
     plot_dict (PyDict entries) step_size use_title use_xlabel use_ylabel
       style_sheet use_grid width height (PyStr s) use_dpi path show_plot st =
     (Returns tt, st') ->
     Forall one_character_style (String.list_ascii_of_string s) /\
     (length entries <= String.length s)%nat /\
     exists new,
       st' = add_calls (use_style st style_sheet) new /\
       forall i use_label array,
         entries !! i = Some (use_label, array) ->
         exists steps c,
           String.list_ascii_of_string s !! i = Some c /\
           plot_calls new !! i =
             Some (steps, array, PyStr (String c EmptyString), use_label)) /\
  (~ Forall one_character_style (String.list_ascii_of_string s) ->
   exists c,
     In c (String.list_ascii_of_string s) /\ ~ one_character_style c /\
     plot_dict (PyDict entries) step_size use_title use_xlabel use_ylabel
       style_sheet use_grid width height (PyStr s) use_dpi path show_plot st =
     (Raises (ValueError (linestyle_not_in_styles (PyStr (String c EmptyString))
                            linestyles)),
      use_style st style_sheet)).
Proof.
  intros Hentries Hstyle. split.
  - intros st' H.
    destruct (plot_dict_sequence_inv _ _ _ _ _ _ _ _ _ _ (py_chars s) _ _ _ _ _
                H eq_refl) as (Hlen & Hstyles & new & -> & _ & Hplots).
    rewrite py_chars_spec in Hlen, Hstyles. rewrite length_map in Hlen.
    split; [|split].
    + apply Forall_fmap in Hstyles. eapply Forall_impl; [exact Hstyles|].
      intros c Hc. by apply one_character_supported.
    + rewrite <- (String.string_of_list_ascii_of_string s) at 1.
      clear -Hlen. revert Hlen.
      generalize (String.list_ascii_of_string s) (length entries).
      intros chars. induction chars as [|c rest IH]; simpl; intros n Hn; [done|].
      destruct n as [|n]; [lia|]. specialize (IH n). lia.
    + exists new. split; [done|]. intros i use_label array Hi.
      destruct (Hplots i use_label array Hi) as (steps & linestyle & Hget & Hplot).
      rewrite py_chars_spec, list_lookup_fmap in Hget.
      destruct (String.list_ascii_of_string s !! i) as [c|] eqn:Hc; [|done].
      injection Hget as <-. by exists steps, c.
  - intros Hbad. apply not_Forall_Exists in Hbad; [|intros c; unfold one_character_style; apply _].
    apply Exists_exists in Hbad as (c0 & Hin0 & Hc0).
    assert (Hfail : linestyle_outcome (PyStr (String c0 EmptyString)) =
                    Raises (ValueError (linestyle_not_in_styles
                                          (PyStr (String c0 EmptyString)) linestyles))).
    { rewrite linestyle_outcome_str.
      destruct (py_in (PyStr (String c0 EmptyString)) linestyles) eqn:Hin; [|done].
      by apply one_character_supported in Hin. }
    assert (Hmem : PyStr (String c0 EmptyString) ∈ py_chars s).
    { rewrite py_chars_spec. apply list_elem_of_fmap. eauto. }
    destruct (first_raise_fails linestyle_outcome _ _ _ Hmem Hfail)
      as (y & e' & Hy & Hcheck & Hfirst).
    rewrite py_chars_spec in Hy. apply list_elem_of_fmap in Hy as (c & -> & Hc).
    rewrite linestyle_outcome_str in Hcheck.
    destruct (py_in (PyStr (String c EmptyString)) linestyles) eqn:Hnot; [done|].
    injection Hcheck as <-.
    exists c. split; [by apply list_elem_of_In|]. split.
    + intros Hone. apply one_character_supported in Hone. congruence.
    + rewrite plot_dict_unfold, valid_entries_pass by done.
      unfold style_outcome.
      rewrite membership_passes by (by apply supported_style_in).
      cbn [checked_linestyles is_none py_list]. cbv zeta. by rewrite Hfirst.
Qed.

Lemma plot_dict_string_of_linestyles_witness :
  exists c,
    In c (String.list_ascii_of_string "-.") /\ ~ one_character_style c /\
    plot_dict (PyDict [(PyStr "a", PyList [PyInt 3]); (PyStr "b", PyList [PyInt 5])])
      1 PyNone PyNone PyNone (PyStr "ggplot") (PyBool true) 3 1 (PyStr "-.")
      (PyInt 20) PyNone (PyBool false) example_state =
    (Raises (ValueError (linestyle_not_in_styles (PyStr (String c EmptyString))
                           linestyles)),
     use_style example_state (PyStr "ggplot")).
Proof.
  apply (plot_dict_string_of_linestyles
           [(PyStr "a", PyList [PyInt 3]); (PyStr "b", PyList [PyInt 5])] 1
           PyNone PyNone PyNone (PyStr "ggplot") (PyBool true) 3%Q 1%Q "-.").
  - by repeat constructor.
  - exists "ggplot". split; [done|]. by repeat constructor.
  - intros Hall. apply Forall_cons in Hall as [_ Hall].
    apply Forall_cons in Hall as [[Hdot|Hdot] _]; discriminate Hdot.
Defined.

Lemma first_raise_app {A} (check : A -> outcome unit) before x after :
  Forall (fun y => check y = Returns tt) before ->
  first_raise check (before ++ x :: after) =
  match check x with
  | Returns _ => first_raise check after
  | Raises e => Raises e
  end.
Proof. induction 1 as [|y rest Hy _ IH]; simpl; [done|]. by rewrite Hy. Qed.

(** X8: [plot_dict] reports the first entry, in the order of the
    dictionary, that is not a string key with a list value, whatever comes
    after it and whatever the other arguments are; for that entry the key
    is checked before the value.  Nothing else has happened by then. *)
Theorem plot_dict_reports_first_bad_entry before bad after step_size use_title
    use_xlabel use_ylabel style_sheet use_grid width height use_linestyles
    use_dpi path show_plot st :
  Forall valid_entry before ->
  ~ valid_entry bad ->
  plot_dict (PyDict (before ++ bad :: after)) step_size use_title use_xlabel
    use_ylabel style_sheet use_grid width height use_linestyles use_dpi path
    show_plot st =
  (Raises (ValueError (if isinstance_str (fst bad)
                       then dict_needs_lists_values
                       else dict_needs_string_keys)), st).
Proof.
  intros Hbefore Hbad. rewrite plot_dict_unfold, first_raise_app.
  2:{ eapply Forall_impl; [exact Hbefore | apply valid_entry_passes]. }
  unfold entry_outcome. destruct bad as [label array]. simpl.
  destruct (isinstance_str label) eqn:Hlabel; simpl; [|done].
  destruct (isinstance_list array) eqn:Harray; simpl; [|done].
  destruct Hbad. by split.
Qed.

Lemma plot_dict_reports_first_bad_entry_witness :
  plot_dict
    (PyDict ([(PyStr "a", PyList [PyInt 3])] ++
             (PyInt 2, PyTuple [PyInt 5]) :: [(PyStr "c", PyNone)]))
    1 PyNone PyNone PyNone (PyStr "neon") (PyBool true) 3 1 (PyInt 0)
    (PyInt 20) PyNone (PyBool false) example_state =
  (Raises (ValueError dict_needs_string_keys), example_state).
Proof.
  apply (plot_dict_reports_first_bad_entry [(PyStr "a", PyList [PyInt 3])]
           (PyInt 2, PyTuple [PyInt 5])).
  - repeat constructor.
  - intros [Hkey _]. discriminate Hkey.
Defined.

(** X9: an argument that cannot be iterated raises a TypeError, not a
    ValueError.  For [plot_confusion_matrix] (after the length check) this
    is [classes] given as None, a Boolean or an integer, before anything is
    drawn; for [plot_dict] it is [use_linestyles] given as a Boolean or an
    integer, after a valid [style_sheet] has been applied. *)
Theorem not_iterable_raises_type_error :
  (forall (y_true y_pred : list Z) classes normalize title cmap image verbose
          magnify dpi st,
     length y_true = length y_pred ->
     classes = PyNone \/ (exists b, classes = PyBool b) \/
       (exists n, classes = PyInt n) ->
     plot_confusion_matrix y_true y_pred classes normalize title cmap image
       verbose magnify dpi st = (Raises TypeError, st)) /\
  (forall entries step_size use_title use_xlabel use_ylabel style_sheet use_grid
          width height use_linestyles use_dpi path show_plot st,
     Forall valid_entry entries ->
     py_in style_sheet (style_available st) = true ->
     (exists b, use_linestyles = PyBool b) \/ (exists n, use_linestyles = PyInt n) ->
     plot_dict (PyDict entries) step_size use_title use_xlabel use_ylabel
       style_sheet use_grid width height use_linestyles use_dpi path show_plot
       st = (Raises TypeError, use_style st style_sheet)).
Proof.
  split.
  - intros y_true y_pred classes normalize title cmap image verbose magnify dpi
      st Hlen Hclasses.
    rewrite plot_confusion_matrix_unfold, Hlen, Nat.eqb_refl.
    by destruct Hclasses as [->|[[b ->]|[n ->]]].
  - intros entries step_size use_title use_xlabel use_ylabel style_sheet use_grid
      width height use_linestyles use_dpi path show_plot st Hentries Hstyle
      Hlines.
    rewrite plot_dict_unfold, valid_entries_pass by done.
    unfold style_outcome. rewrite membership_passes by done.
    by destruct Hlines as [[b ->]|[n ->]].
Qed.

Lemma not_iterable_raises_type_error_witness :
  plot_confusion_matrix [0; 1] [1; 1] PyNone false PyNone (PyOther "Blues")
    PyNone 0 (12 # 10) (PyInt 50) example_state =
    (Raises TypeError, example_state) /\
  plot_dict (PyDict [(PyStr "a", PyList [PyInt 3])]) 1 PyNone PyNone PyNone
    (PyStr "ggplot") (PyBool true) 3 1 (PyInt 1) (PyInt 20) PyNone
    (PyBool false) example_state =
    (Raises TypeError, use_style example_state (PyStr "ggplot")).
Proof.
  destruct not_iterable_raises_type_error as [Hclasses Hlines].
  split.
  - apply Hclasses; [reflexivity | by left].
  - apply Hlines; [repeat constructor | reflexivity | right; by exists 1].
Defined.

(** ** plot_confusion_matrix *)

Lemma insert_label_not_nil x labels : insert_label x labels <> [].
Proof.
  destruct labels as [|y rest]; simpl; [done|].
  destruct (x <? y)%Z; [done|]. by destruct (x =? y)%Z.
Qed.

Lemma unique_labels_nil y_true y_pred :
  unique_labels y_true y_pred = [] <-> y_true = [] /\ y_pred = [].
Proof.
  unfold unique_labels. split.
  - destruct y_true as [|t rest]; simpl.
    + destruct y_pred as [|p rest]; simpl; [done|].
      intros H. by apply insert_label_not_nil in H.
    + intros H. by apply insert_label_not_nil in H.
  - by intros [-> ->].
Qed.

Lemma np_max_returned_matrix normalize y_true y_pred :
  np_max (returned_matrix normalize y_true y_pred) = None <->
  y_true = [] /\ y_pred = [].
Proof.
  rewrite <- unique_labels_nil. unfold np_max, returned_matrix, confusion_matrix.
  destruct (unique_labels y_true y_pred) as [|t labels].
  - by destruct normalize.
  - destruct normalize; simpl; split; done.
Qed.

(** X10: when [plot_confusion_matrix] returns, the two label sequences
    have the same length and are not empty, every label of [y_pred] occurs
    in [y_true], [classes] can be iterated and is empty or has one name per
    distinct label of [y_true], and [title] and [image] have a truth value;
    what it returns is the count matrix, with each row divided by its sum
    when [normalize] is set. *)
Theorem plot_confusion_matrix_returns_only_if (y_true y_pred : list Z) classes
    normalize title cmap image verbose magnify dpi st cm st' :
  plot_confusion_matrix y_true y_pred classes normalize title cmap image
    verbose magnify dpi st = (Returns cm, st') ->
  length y_true = length y_pred /\ y_true <> [] /\
  (forall p, p ∈ y_pred -> p ∈ y_true) /\
  (exists names,
     py_list classes = Some names /\
     (names = [] \/ length names = size (list_to_set y_true : gset Z))) /\
  is_Some (py_truth title) /\ is_Some (py_truth image) /\
  cm = returned_matrix normalize y_true y_pred.
Proof.
  rewrite plot_confusion_matrix_unfold.
  destruct (Nat.eqb_spec (length y_true) (length y_pred)) as [Hlen|Hlen]; simpl;
    [|done].
  destruct (py_list classes) as [names|]; [|done].
  destruct (assertion_fails y_true names) eqn:Hassert; [done|].
  destruct (py_truth title) as [has_title|]; [|done].
  destruct (ticklabels_fit _ _) eqn:Hfit; [|done].
  pose proof (np_max_returned_matrix normalize y_true y_pred) as Hmax.
  destruct (np_max _) as [top|]; [|done].
  destruct (py_truth image) as [save|]; [|done].
  intros [= <- _]. split; [done|]. split; [|split; [|split]].
  - intros ->. destruct Hmax as [_ Hmax].
    destruct y_pred; [|done]. by discriminate Hmax.
  - exact (proj1 (ticklabels_fit_covered _ _ _ Hlen Hassert) Hfit).
  - exists names. split; [done|]. unfold assertion_fails in Hassert.
    destruct names as [|name rest]; [by left|]. right.
    destruct (Nat.eqb_spec (size (list_to_set y_true : gset Z))
                           (length (name :: rest))); [done|discriminate].
  - split; [by eauto|]. split; [by eauto|done].
Qed.

Lemma plot_confusion_matrix_returns_only_if_witness :
  exists cm st',
    plot_confusion_matrix [2; 2; 5] [5; 2; 5] (PyList [PyStr "cat"; PyStr "dog"])
      true (PyStr "Pets") (PyOther "Blues") PyNone 1 (12 # 10) (PyInt 50)
      example_state = (Returns cm, st') /\
    length [2; 2; 5] = length [5; 2; 5] /\ [2; 2; 5] <> [] /\
    (forall p : Z, p ∈ [5; 2; 5] -> p ∈ [2; 2; 5]) /\
    (exists names,
       py_list (PyList [PyStr "cat"; PyStr "dog"]) = Some names /\
       (names = [] \/ length names = size (list_to_set [2; 2; 5] : gset Z))) /\
    is_Some (py_truth (PyStr "Pets")) /\ is_Some (py_truth PyNone) /\
    cm = returned_matrix true [2; 2; 5] [5; 2; 5].
Proof.
  exists (returned_matrix true [2; 2; 5] [5; 2; 5]),
    (snd (plot_confusion_matrix [2; 2; 5] [5; 2; 5]
            (PyList [PyStr "cat"; PyStr "dog"]) true (PyStr "Pets")
            (PyOther "Blues") PyNone 1 (12 # 10)%Q (PyInt 50) example_state)).
  split; [reflexivity|].
  exact (plot_confusion_matrix_returns_only_if [2; 2; 5] [5; 2; 5]
           (PyList [PyStr "cat"; PyStr "dog"]) true (PyStr "Pets")
           (PyOther "Blues") PyNone 1 (12 # 10)%Q (PyInt 50) example_state _ _
           eq_refl).
Defined.

(** X11: a [step_size] that an int64 cannot hold makes numpy raise an
    OverflowError as soon as a series has a value.  [plot_array] then has
    applied the style sheet and drawn nothing; [plot_dict] has made the
    subplot and fails at its first series. *)
Theorem step_size_overflow :
  (forall item items step_size use_label use_title use_xlabel use_ylabel
          style_sheet use_grid width height use_linestyle use_dpi path show_plot
          st,
     supported_style style_sheet (style_available st) ->
     supported_linestyle use_linestyle ->
     fits_int64 step_size = false ->
     plot_array (PyList (item :: items)) step_size use_label use_title
       use_xlabel use_ylabel style_sheet use_grid width height use_linestyle
       use_dpi path show_plot st =
     (Raises OverflowError, use_style st style_sheet)) /\
  (forall use_label item items entries step_size use_title use_xlabel
          use_ylabel style_sheet use_grid width height use_dpi path show_plot st,
     isinstance_str use_label = true ->
     Forall valid_entry entries ->
     supported_style style_sheet (style_available st) ->
     fits_int64 step_size = false ->
     plot_dict (PyDict ((use_label, PyList (item :: items)) :: entries))
       step_size use_title use_xlabel use_ylabel style_sheet use_grid width
       height PyNone use_dpi path show_plot st =
     (Raises OverflowError,
      add_calls (use_style st style_sheet) [plt_subplot 1 2 1])).
Proof.
  split.
  - intros item items step_size use_label use_title use_xlabel use_ylabel
      style_sheet use_grid width height use_linestyle use_dpi path show_plot st
      Hstyle Hline Hfits.
    rewrite plot_array_unfold. unfold style_outcome, linestyle_outcome.
    rewrite !membership_passes
      by (by apply supported_style_in || by apply supported_linestyle_in).
    cbv zeta. unfold np_steps. cbn [length]. by rewrite Hfits.
  - intros use_label item items entries step_size use_title use_xlabel
      use_ylabel style_sheet use_grid width height use_dpi path show_plot st
      Hlabel Hentries Hstyle Hfits.
    rewrite plot_dict_unfold, valid_entries_pass.
    2:{ constructor; [by split|done]. }
    unfold style_outcome.
    rewrite membership_passes by (by apply supported_style_in).
    cbn [checked_linestyles is_none]. cbv zeta.
    unfold enumerate. cbn [enumerate_from plotted py_len length].
    unfold np_steps. by rewrite Hfits.
Qed.

Lemma step_size_overflow_witness :
  plot_array (PyList [PyInt 1; PyInt 2]) (2 ^ 63) PyNone PyNone PyNone PyNone
    (PyStr "ggplot") (PyBool true) 3 1 (PyStr "-") (PyInt 20) PyNone
    (PyBool true) example_state =
    (Raises OverflowError, use_style example_state (PyStr "ggplot")) /\
  plot_dict (PyDict [(PyStr "a", PyList [PyInt 3]); (PyStr "b", PyList [])])
    (- 2 ^ 63 - 1) PyNone PyNone PyNone (PyStr "ggplot") (PyBool true) 3 1
    PyNone (PyInt 20) PyNone (PyBool true) example_state =
    (Raises OverflowError,
     add_calls (use_style example_state (PyStr "ggplot")) [plt_subplot 1 2 1]).
Proof.
  destruct step_size_overflow as [Harray Hdict].
  assert (Hggplot : supported_style (PyStr "ggplot")
                      (style_available example_state)).
  { exists "ggplot". split; [done|]. by repeat constructor. }
  split.
  - apply Harray; [exact Hggplot | | reflexivity].
    exists "-". split; [done|]. constructor.
  - apply Hdict; [reflexivity | | exact Hggplot | reflexivity].
    by repeat constructor.
Defined.





Lemma printed_app cs1 cs2 : printed (cs1 ++ cs2) = printed cs1 ++ printed cs2.
Proof. apply flat_map_app. Qed.

Lemma titles_given_app cs1 cs2 :
  titles_given (cs1 ++ cs2) = titles_given cs1 ++ titles_given cs2.
Proof. apply flat_map_app. Qed.

Lemma annotations_print_nothing cm fmt thresh :
  printed (annotations cm fmt thresh) = [] /\
  titles_given (annotations cm fmt thresh) = [].
Proof.
  unfold printed, titles_given, annotations. split;
    apply flat_map_flat_map_nil; intros i;
    apply flat_map_flat_map_nil; intros j;
    by destruct (cell_at cm i j).
Qed.

(** X13: every call that returns has printed one line, "Normalized
    confusion matrix" or "Confusion matrix, without normalization", whatever
    [verbose] is, and the matrix after it exactly when verbose > 0; the
    heatmap gets the caller's title when that is true, and the printed line
    as its title otherwise (no title, or an empty one). *)
Theorem printed_line_and_title (y_true y_pred : list Z) classes normalize title
    cmap image verbose magnify dpi st cm st' :
  plot_confusion_matrix y_true y_pred classes normalize title cmap image verbose
    magnify dpi st = (Returns cm, st') ->
  let line := if normalize then "Normalized confusion matrix"
              else "Confusion matrix, without normalization" in
  exists has_title new,
    py_truth title = Some has_title /\
    st' = add_calls st new /\
    printed new = inl line :: (if (0 <? verbose)%Z then [inr cm] else []) /\
    titles_given new = [if has_title then title else PyStr line].
Proof.
  rewrite plot_confusion_matrix_unfold.
  destruct (negb _); [done|].
  destruct (py_list classes) as [names|]; [|done].
  destruct (assertion_fails y_true names); [done|].
  destruct (py_truth title) as [has_title|]; [|done].
  cbv zeta. destruct (ticklabels_fit _ _); [|done].
  destruct (np_max _) as [top|]; [|done].
  destruct (py_truth image) as [save|]; [|done].
  intros [= <- <-]. exists has_title. eexists. split; [done|]. split; [done|].
  unfold plot_confusion_matrix_calls, heatmap_calls, axes_calls, resolved_title.
  rewrite !printed_app, !titles_given_app.
  destruct (annotations_print_nothing (returned_matrix normalize y_true y_pred)
              (if normalize then ".2f" else "d") (np_divide top (Fin 2)))
    as [-> ->].
  by destruct (0 <? verbose)%Z, save, has_title, normalize.
Qed.

Lemma printed_line_and_title_witness :
  exists has_title new,
    py_truth (PyStr EmptyString) = Some has_title /\
    snd (plot_confusion_matrix [0; 1; 1; 0] [0; 1; 0; 0] default_classes false
           (PyStr EmptyString) (PyOther "Blues") PyNone 0 (12 # 10) (PyInt 50)
           example_state) = add_calls example_state new /\
    printed new = [inl "Confusion matrix, without normalization"] /\
    titles_given new =
      [if has_title then PyStr EmptyString
       else PyStr "Confusion matrix, without normalization"].
Proof.
  exact (printed_line_and_title [0; 1; 1; 0] [0; 1; 0; 0] default_classes false
           (PyStr EmptyString) (PyOther "Blues") PyNone 0 (12 # 10)%Q (PyInt 50)
           example_state _ _ eq_refl).
Defined.

Lemma flat_map_flat_map {A B C} (g : B -> list C) (f : A -> list B) xs :
  flat_map g (flat_map f xs) = flat_map (fun x => flat_map g (f x)) xs.
Proof.
  induction xs as [|x rest IH]; simpl; [done|]. by rewrite flat_map_app, IH.
Qed.

Lemma flat_map_length_const {A B} (f : A -> list B) xs k :
  (forall x, In x xs -> length (f x) = k) ->
  length (flat_map f xs) = (length xs * k)%nat.
Proof.
  induction xs as [|x rest IH]; intros Hf; simpl; [done|].
  rewrite length_app, Hf by (by left).
  rewrite IH by (intros y Hy; apply Hf; by right). lia.
Qed.

(** The colour of the annotation of a cell. *)
Lemma text_calls_annotations cm fmt thresh :
  text_calls (annotations cm fmt thresh) =
  flat_map (fun i =>
    flat_map (fun j =>
      match cell_at cm i j with
      | Some cell =>
          [(Z.of_nat j, Z.of_nat i, cell,
            if np_greater (cell_float cell) thresh then "white" else "black")]
      | None => []
      end) (seq 0 (snd (shape cm)))) (seq 0 (fst (shape cm))).
Proof.
  unfold text_calls, annotations. rewrite flat_map_flat_map.
  apply flat_map_ext. intros i. rewrite flat_map_flat_map.
  apply flat_map_ext. intros j. by destruct (cell_at cm i j).
Qed.

Lemma cell_at_in_shape cm i j cell :
  rectangular_array cm -> cell_at cm i j = Some cell ->
  (i < fst (shape cm))%nat /\ (j < snd (shape cm))%nat.
Proof.
  assert (Hgen : forall {A} (rows : list (list A)) row (x : A),
            rectangular rows -> rows !! i = Some row -> row !! j = Some x ->
            (i < length rows)%nat /\ (j < length (hd [] rows))%nat).
  { intros A rows row x Hrect Hrow Hx. split; [by eapply lookup_lt_Some|].
    unfold rectangular in Hrect. rewrite Forall_forall in Hrect.
    rewrite <- (Hrect row) by (by eapply list_elem_of_lookup_2).
    by eapply lookup_lt_Some. }
  destruct cm as [rows|rows]; simpl; intros Hrect Hcell;
    destruct (rows !! i) as [row|] eqn:Hrow; simpl in Hcell; try done;
    destruct (row !! j) as [x|] eqn:Hx; simpl in Hcell; try done;
    by eapply Hgen.
Qed.

(** X14: a call that returns writes exactly one annotation per cell of
    the matrix, n * n of them for n distinct labels; the one for row i and
    column j is placed at x = j, y = i with the value of that cell, in white
    when the value is greater than half the largest value of the matrix and
    in black otherwise. *)
Theorem every_cell_is_annotated (y_true y_pred : list Z) classes normalize
    title cmap image verbose magnify dpi st cm st' :
  plot_confusion_matrix y_true y_pred classes normalize title cmap image verbose
    magnify dpi st = (Returns cm, st') ->
  exists top new,
    np_max cm = Some top /\
    st' = add_calls st new /\
    length (text_calls new) =
      (length (unique_labels y_true y_pred) *
       length (unique_labels y_true y_pred))%nat /\
    forall i j cell,
      cell_at cm i j = Some cell ->
      (Z.of_nat j, Z.of_nat i, cell,
       if np_greater (cell_float cell) (np_divide top (Fin 2))
       then "white" else "black") ∈ text_calls new.
Proof.
  rewrite plot_confusion_matrix_unfold.
  destruct (negb _); [done|].
  destruct (py_list classes) as [names|]; [|done].
  destruct (assertion_fails y_true names); [done|].
  destruct (py_truth title) as [has_title|]; [|done].
  cbv zeta. destruct (ticklabels_fit _ _); [|done].
  destruct (np_max _) as [top|] eqn:Htop; [|done].
  destruct (py_truth image) as [save|]; [|done].
  intros [= <- <-]. exists top. eexists. split; [done|]. split; [done|].
  pose proof (returned_matrix_rectangular normalize y_true y_pred) as Hrect.
  pose proof (shape_returned_matrix normalize y_true y_pred) as Hshape.
  set (cm := returned_matrix normalize y_true y_pred) in *.
  set (n := length (unique_labels y_true y_pred)) in *.
  assert (Htexts : forall fmt,
    text_calls (plot_confusion_matrix_calls cm (resolved_classes y_true names)
                  normalize (resolved_title normalize has_title title) cmap
                  image verbose magnify dpi top save) =
    text_calls (annotations cm fmt (np_divide top (Fin 2)))).
  { intros fmt.
    unfold plot_confusion_matrix_calls, heatmap_calls, axes_calls, text_calls.
    rewrite !flat_map_app. fold text_calls.
    rewrite !text_calls_annotations.
    destruct (0 <? verbose)%Z, save; simpl; by rewrite app_nil_r. }
  rewrite (Htexts "d"), text_calls_annotations, Hshape. simpl. split.
  - rewrite (flat_map_length_const _ _ n); [by rewrite length_seq|].
    intros i Hi%in_seq.
    rewrite (flat_map_length_const _ _ 1%nat); [rewrite length_seq; lia|].
    intros j Hj%in_seq.
    destruct (cell_at_defined cm i j Hrect) as [cell ->];
      rewrite ?Hshape; simpl; [lia..|done].
  - intros i j cell Hcell.
    destruct (cell_at_in_shape cm i j cell Hrect Hcell) as [Hi Hj].
    rewrite Hshape in Hi, Hj. simpl in Hi, Hj.
    apply list_elem_of_In, in_flat_map. exists i. split; [apply in_seq; lia|].
    apply in_flat_map. exists j. split; [apply in_seq; lia|].
    rewrite Hcell. by left.
Qed.

Lemma every_cell_is_annotated_witness :
  exists top new,
    np_max (IntArray [[2; 0]; [1; 1]]) = Some top /\
    snd (plot_confusion_matrix [0; 1; 1; 0] [0; 1; 0; 0] default_classes false
           PyNone (PyOther "Blues") PyNone 0 (12 # 10) (PyInt 50)
           example_state) = add_calls example_state new /\
    length (text_calls new) = 4%nat /\
    forall i j cell,
      cell_at (IntArray [[2; 0]; [1; 1]]) i j = Some cell ->
      (Z.of_nat j, Z.of_nat i, cell,
       if np_greater (cell_float cell) (np_divide top (Fin 2))
       then "white" else "black") ∈ text_calls new.
Proof.
  exact (every_cell_is_annotated [0; 1; 1; 0] [0; 1; 0; 0] default_classes false
           PyNone (PyOther "Blues") PyNone 0 (12 # 10)%Q (PyInt 50)
           example_state _ _ eq_refl).
Defined.
